(** * Certification tracker: the browser-local data layer and the expiry views

    A shallow embedding of
    - [client/src/lib/localData.ts]  (certification repository),
    - [client/src/lib/localAuth.ts]  (user repository: register, login, list),
    - the legacy express routes for register and login,
    - the day-bucket logic of the certification card and of the counting
      views (renewals page, dashboards, admin pages, list filters),
    followed by the properties of the specification that these decide. *)

From Stdlib Require Import ZArith String Ascii List.
From stdpp Require Import base option list gmap fin_maps strings pretty.

Local Open Scope string_scope.

(** ** JavaScript values as the code uses them *)

(** A plain JS object all of whose properties hold strings: a finite map from
    property names to values.  A key that is absent reads as [undefined];
    [null] is not distinguished from [undefined], since the code only tests
    such values for truthiness or compares them with [===] against a string. *)
Abbreviation obj := (gmap string string).

(** An object given as an update ([Partial<T>]): a key can be absent, present
    with a string, or present with the value [undefined] ([Some None]). *)
Abbreviation partial := (gmap string (option string)).

(** [data.k] on a partial object. *)
Definition pget (data : partial) (k : string) : option string :=
  mjoin (data !! k).

(** [v || d] for a possibly undefined string [v]: the empty string is falsy. *)
Definition or_else (v : option string) (d : string) : string :=
  match v with
  | Some s => if decide (s = "") then d else s
  | None => d
  end.

(** [!v] for a possibly undefined string. *)
Definition falsy (v : option string) : bool :=
  match v with
  | Some s => bool_decide (s = "")
  | None => true
  end.

(** [{ ...old, ...data }]: every own key of [data] is copied over [old],
    also one whose value is [undefined]. *)
Definition spread (old : obj) (data : partial) : obj :=
  merge (λ o n, match n with Some v => v | None => o end) old data.

(** [Array.prototype.findIndex], with [None] for [-1]. *)
Definition findIndex {A} (P : A → Prop) `{∀ x, Decision (P x)}
    (l : list A) : option nat :=
  fst <$> list_find P l.

(** A JS number that is an integer or [NaN] ([None]); every comparison with
    [NaN] is false. *)
Definition number := option Z.

Definition num_lt (x : number) (k : Z) : bool :=
  match x with Some z => bool_decide (z < k)%Z | None => false end.
Definition num_le (x : number) (k : Z) : bool :=
  match x with Some z => bool_decide (z ≤ k)%Z | None => false end.
Definition num_gt (x : number) (k : Z) : bool :=
  match x with Some z => bool_decide (k < z)%Z | None => false end.
Definition num_ge (x : number) (k : Z) : bool :=
  match x with Some z => bool_decide (k ≤ z)%Z | None => false end.

(** What [localStorage.getItem(KEY)] finds: nothing (or the empty string, which
    [!raw] treats alike), text that [JSON.parse] rejects, or the serialisation
    of a value of the declared type. *)
Inductive slot (A : Type) : Type :=
  | Missing
  | Corrupt
  | Stored (a : A).
Arguments Missing {A}.
Arguments Corrupt {A}.
Arguments Stored {A} a.

(** ** Operations on the store: state passing with exceptions *)

Inductive error : Type :=
  | NotFound       (* Error("Not found") *)
  | Conflict       (* Error("409: Username already exists") *)
  | Unauthorized.  (* Error("401: Invalid credentials") *)

(** An operation reads and writes the store of type [S]; it returns a value or
    throws, and what it wrote before throwing stays written. *)
Definition M (S A : Type) : Type := S → (error + A) * S.

Definition ret {S A} (a : A) : M S A := λ s, (inr a, s).
Definition throw {S A} (e : error) : M S A := λ s, (inl e, s).
Definition bind {S A B} (m : M S A) (k : A → M S B) : M S B :=
  λ s, match m s with
       | (inr a, s') => k a s'
       | (inl e, s') => (inl e, s')
       end.

Notation "'let*' x := m 'in' k" := (bind m (λ x, k))
  (at level 10, x name, m at level 100, k at level 200, only parsing).
Notation "m ;;; k" := (bind m (λ _, k))
  (at level 100, k at level 200, right associativity, only parsing).

(** ** [localData.ts]: the certification repository *)

Module LocalData.

Abbreviation Certification := obj.
Abbreviation store := (slot (list obj)).

Definition loadCerts : M store (list Certification) := λ s,
  match s with
  | Missing => (inr [], Stored [])
  | Corrupt => (inr [], Corrupt)
  | Stored certs => (inr certs, Stored certs)
  end.

Definition saveCerts (certs : list Certification) : M store unit :=
  λ _, (inr (), Stored certs).

Definition getAllCertifications : M store (list Certification) :=
  loadCerts.

Definition getCertificationsByUser (userId : option string)
    : M store (list Certification) :=
  let* certs := loadCerts in
  if falsy userId then ret []
  else ret (filter (λ c : obj, c !! "userId" = userId) certs).

(** [uuid] is the value [uuidv4()] returns in this call and [today] the value
    of [new Date().toISOString().slice(0, 10)]. *)
Definition createCertification (uuid today : string) (data : partial)
    : M store Certification :=
  let* certs := loadCerts in
  let id := uuid in
  let cert : obj :=
    <["id" := id]>
    (<["userId" := or_else (pget data "userId") ""]>
    (<["name" := or_else (pget data "name") ""]>
    (<["issuingOrganization" := or_else (pget data "issuingOrganization") ""]>
    (<["credentialId" := or_else (pget data "credentialId") ""]>
    (<["issueDate" := or_else (pget data "issueDate") today]>
    (<["expirationDate" := or_else (pget data "expirationDate") today]>
     ∅)))))) in
  saveCerts (certs ++ [cert]) ;;;
  ret cert.

Definition updateCertification (id : string) (data : partial)
    : M store Certification :=
  let* certs := loadCerts in
  match findIndex (λ c : obj, c !! "id" = Some id) certs with
  | None => throw NotFound
  | Some idx =>
      let merged := spread (default ∅ (certs !! idx)) data in
      let certs' := <[idx := merged]> certs in
      saveCerts certs' ;;;
      ret merged
  end.

Definition deleteCertification (id : string) : M store unit :=
  let* certs := loadCerts in
  let newCerts := filter (λ c : obj, c !! "id" ≠ Some id) certs in
  saveCerts newCerts.

(** The certifications a store holds, as [loadCerts] reads them. *)
Definition certs_of (s : store) : list Certification :=
  match (loadCerts s).1 with inr l => l | inl _ => [] end.

End LocalData.

(** ** Property lookup on an object used as a dictionary *)

(** The own property names of [Object.prototype], which every object obtained
    from a literal or from [JSON.parse] inherits. *)
Definition object_prototype_keys : list string :=
  [ "constructor"; "__defineGetter__"; "__defineSetter__"; "hasOwnProperty";
    "__lookupGetter__"; "__lookupSetter__"; "isPrototypeOf";
    "propertyIsEnumerable"; "toString"; "valueOf"; "__proto__";
    "toLocaleString" ].

(** What [users[k]] evaluates to: an own entry, a member inherited from
    [Object.prototype] (truthy, and without a [password]), or [undefined]. *)
Inductive prop (A : Type) : Type :=
  | Own (a : A)
  | Inherited
  | Undefined.
Arguments Own {A} a.
Arguments Inherited {A}.
Arguments Undefined {A}.

Definition get_prop {A} (o : gmap string A) (k : string) : prop A :=
  match o !! k with
  | Some a => Own a
  | None => if bool_decide (k ∈ object_prototype_keys) then Inherited
            else Undefined
  end.

(** ** [localAuth.ts]: the user repository *)

Module LocalAuth.

Abbreviation StoredUser := obj.
Abbreviation store := (slot (gmap string obj)).

Definition mkUser (id username fullName email role : string) : obj :=
  <["id" := id]> (<["username" := username]> (<["fullName" := fullName]>
  (<["email" := email]> (<["role" := role]> ∅)))).

Definition demo : gmap string StoredUser :=
  <["admin" := <["password" := "admin123"]>
      (mkUser "1" "admin" "Administrator" "admin@example.com" "admin")]>
  (<["john" := <["password" := "user123"]>
      (mkUser "2" "john" "John Doe" "john@example.com" "user")]> ∅).

Definition loadUsers : M store (gmap string StoredUser) := λ s,
  match s with
  | Missing => (inr demo, Stored demo)
  | Corrupt => (inr ∅, Corrupt)
  | Stored users => (inr users, Stored users)
  end.

Definition saveUsers (users : gmap string StoredUser) : M store unit :=
  λ _, (inr (), Stored users).

(** [const { password, ...publicUser } = user]. *)
Definition publicUser (user : StoredUser) : obj := delete "password" user.

Record Registration : Type := {
  username : string;
  password : string;
  fullName : string;
  email : string
}.

Definition registerLocal (data : Registration) : M store obj :=
  let* users := loadUsers in
  let username := data.(username) in
  match get_prop users username with
  | Own _ | Inherited => throw Conflict
  | Undefined =>
      let id := pretty (size users + 1) in
      let user : StoredUser :=
        <["password" := data.(password)]>
          (mkUser id username data.(fullName) data.(email) "user") in
      let users := <[username := user]> users in
      saveUsers users ;;;
      ret (publicUser user)
  end.

Record Credentials : Type := {
  login_username : string;
  login_password : string
}.

Definition loginLocal (data : Credentials) : M store obj :=
  let* users := loadUsers in
  match get_prop users data.(login_username) with
  | Undefined => throw Unauthorized
  | Inherited => throw Unauthorized   (* [user.password] is [undefined] *)
  | Own user =>
      if decide (user !! "password" ≠ Some data.(login_password))
      then throw Unauthorized
      else ret (publicUser user)
  end.

(** [Object.values(users).map(...)].  The order in which [Object.values]
    enumerates the entries is not modelled; [map_to_list] fixes some order. *)
Definition getAllUsers : M store (list obj) :=
  let* users := loadUsers in
  ret ((λ u, publicUser u) <$> (map_to_list users).*2).

(** The users a store holds, as [loadUsers] reads them. *)
Definition users_of (s : store) : gmap string StoredUser :=
  match (loadUsers s).1 with inr m => m | inl _ => ∅ end.

End LocalAuth.

(** ** The legacy express server: users held in memory, without passwords *)

Module Server.

Definition users : gmap string obj :=
  <["admin" :=
      LocalAuth.mkUser "1" "admin" "Administrator" "admin@example.com" "admin"]>
  (<["john" :=
      LocalAuth.mkUser "2" "john" "John Doe" "john@example.com" "user"]> ∅).

Inductive response : Type :=
  | Json (status : nat) (body : prop obj)      (* res.status(n).json(value) *)
  | Failure (status : nat) (message : string). (* res.status(n).json({error}) *)

(** [app.post("/api/auth/register")]; the four arguments are the fields of
    [req.body || {}].  The password is checked for presence and then dropped. *)
Definition register (username password fullName email : option string)
    (users : gmap string obj) : response * gmap string obj :=
  if falsy username || falsy password || falsy fullName || falsy email
  then (Failure 400 "Missing registration fields", users)
  else
    let username := default "" username in
    match get_prop users username with
    | Own _ | Inherited => (Failure 409 "Username already exists", users)
    | Undefined =>
        let id := pretty (size users + 1) in
        let user := LocalAuth.mkUser id username (default "" fullName)
                      (default "" email) "user" in
        (Json 201 (Own user), <[username := user]> users)
    end.

(** [app.post("/api/auth/login")]. *)
Definition login (username password : option string)
    (users : gmap string obj) : response :=
  if falsy username || falsy password
  then Failure 400 "Missing login fields"
  else
    let name := default "" username in
    (* For demo, accept the known demo passwords *)
    if bool_decide ((username = Some "admin" ∧ password = Some "admin123")
                    ∨ (username = Some "john" ∧ password = Some "user123"))
    then Json 200 (get_prop users name)
    else
      (* Also allow any registered user with any password for demo purposes *)
      match get_prop users name with
      | Undefined => Failure 401 "Invalid credentials"
      | found => Json 200 found
      end.

End Server.

(** ** Dates: the part of date-fns and of the clock that the views use *)

(** The views call [parseISO] on a stored date string, [differenceInDays] on
    two dates (whole days, [NaN] when a date is invalid) and [new Date()].
    [now] is the instant at which a view is evaluated when every reading of
    the clock in that evaluation returns the same instant; the evaluation
    with a clock that moves on between the readings is given further down
    ([filter_reading] and the modules named [...Clock]). *)
Class DateFns : Type := {
  Date : Type;
  parseISO : option string → Date;
  differenceInDays : Date → Date → number;
  now : Date
}.

(** [differenceInDays(parseISO(c.expirationDate), new Date())]. *)
Definition daysLeft `{DateFns} (c : obj) : number :=
  differenceInDays (parseISO (c !! "expirationDate")) now.

(** [`${days}`] *)
Definition show_number (d : number) : string :=
  match d with Some z => pretty z | None => "NaN" end.

(** ** [certification-card.tsx] *)

Module Card.

Record StatusInfo : Type := {
  status : string;
  label : string;
  variant : string;
  color : string
}.

Definition getStatusInfo (daysUntilExpiration : number) : StatusInfo :=
  if num_lt daysUntilExpiration 0 then
    {| status := "expired"; label := "Expired";
       variant := "destructive"; color := "text-destructive" |}
  else if num_le daysUntilExpiration 30 then
    {| status := "critical";
       label := show_number daysUntilExpiration +:+ " days left";
       variant := "destructive"; color := "text-destructive" |}
  else if num_le daysUntilExpiration 60 then
    {| status := "warning";
       label := show_number daysUntilExpiration +:+ " days left";
       variant := "secondary";
       color := "text-yellow-600 dark:text-yellow-500" |}
  else if num_le daysUntilExpiration 90 then
    {| status := "soon";
       label := show_number daysUntilExpiration +:+ " days left";
       variant := "secondary"; color := "text-muted-foreground" |}
  else
    {| status := "active"; label := "Active";
       variant := "default"; color := "text-green-600 dark:text-green-500" |}.

(** The status the card of [certification] shows. *)
Definition cardStatus `{DateFns} (certification : obj) : string :=
  status (getStatusInfo (daysLeft certification)).

End Card.

(** ** The renewals page of a user: [categorizedCerts] *)

Module Renewals.

Record Categorized : Type := {
  expired : list obj;
  critical : list obj;
  warning : list obj;
  upcoming : list obj
}.

(** With every reading of the clock returning [now]; for a clock that
    moves on see [RenewalsClock.categorizedCerts]. *)
Definition categorizedCerts `{DateFns} (certifications : list obj)
    : Categorized :=
  {| expired := filter (λ c, let days := daysLeft c in
                  num_lt days 0) certifications;
     critical := filter (λ c, let days := daysLeft c in
                  num_ge days 0 && num_le days 30) certifications;
     warning := filter (λ c, let days := daysLeft c in
                  num_gt days 30 && num_le days 60) certifications;
     upcoming := filter (λ c, let days := daysLeft c in
                  num_gt days 60 && num_le days 90) certifications |}.

Definition totalNeedingAttention `{DateFns} (certifications : list obj)
    : nat :=
  let cats := categorizedCerts certifications in
  length (expired cats) + length (critical cats)
  + length (warning cats) + length (upcoming cats).

End Renewals.

(** ** The dashboard of a user: [stats] *)

Module Dashboard.

Record Stats : Type := {
  total : nat;
  active : nat;
  expiringSoon : nat;
  expired : nat
}.

(** With every reading of the clock returning [now]; for a clock that
    moves on see [DashboardClock.stats]. *)
Definition stats `{DateFns} (certifications : list obj) : Stats :=
  {| total := length certifications;
     active := length (filter (λ c, let days := daysLeft c in
                 num_gt days 90) certifications);
     expiringSoon := length (filter (λ c, let days := daysLeft c in
                 num_gt days 0 && num_le days 90) certifications);
     expired := length (filter (λ c, let days := daysLeft c in
                 num_lt days 0) certifications) |}.

End Dashboard.

(** ** The admin page of expiring certifications: [stats] *)

Module AdminExpiring.

Record Stats : Type := {
  within30 : nat;
  within60 : nat;
  within90 : nat;
  expired : nat
}.

(** With every reading of the clock returning [now]; for a clock that
    moves on see [AdminExpiringClock.stats]. *)
Definition stats `{DateFns} (certifications : list obj) : Stats :=
  {| within30 := length (filter (λ c, let days := daysLeft c in
                   num_gt days 0 && num_le days 30) certifications);
     within60 := length (filter (λ c, let days := daysLeft c in
                   num_gt days 30 && num_le days 60) certifications);
     within90 := length (filter (λ c, let days := daysLeft c in
                   num_gt days 60 && num_le days 90) certifications);
     expired := length (filter (λ c, let days := daysLeft c in
                   num_lt days 0) certifications) |}.

End AdminExpiring.

(** ** The certification list of a user: [filteredCertifications] *)

(** [String.prototype.toLowerCase].  What it returns on a given text is
    left open: the list filter is described for whatever function it is. *)
Class Casing : Type := { toLowerCase : string → string }.

(** What [toLowerCase] does on ASCII text: the letters A to Z are lowered
    and every other character is kept.  Used to evaluate the filter on
    ASCII samples. *)
Definition lower_ascii (a : ascii) : ascii :=
  let n := nat_of_ascii a in
  if (65 <=? n)%nat && (n <=? 90)%nat then ascii_of_nat (n + 32) else a.

Fixpoint lower_ascii_string (s : string) : string :=
  match s with
  | EmptyString => EmptyString
  | String a s' => String (lower_ascii a) (lower_ascii_string s')
  end.

Definition ascii_casing : Casing := {| toLowerCase := lower_ascii_string |}.

(** [s.includes(sub)] *)
Fixpoint includes (s sub : string) : bool :=
  String.prefix sub s ||
  match s with
  | EmptyString => false
  | String _ s' => includes s' sub
  end.

(** [Array.prototype.filter] with a callback that can throw ([None]): the
    first exception ends the whole call. *)
Fixpoint filter_throwing {A} (p : A → option bool) (l : list A)
    : option (list A) :=
  match l with
  | [] => Some []
  | x :: l' =>
      match p x with
      | None => None
      | Some b =>
          match filter_throwing p l' with
          | None => None
          | Some r => Some (if b then x :: r else r)
          end
      end
  end.

Module UserCertifications.

Inductive StatusFilter : Type := all | active | expiring | expired.

(** [None] is the [TypeError] of calling [toLowerCase] on [undefined]. *)
Definition matchesSearch `{Casing} (search : string) (cert : obj)
    : option bool :=
  match cert !! "name" with
  | None => None
  | Some name =>
      if includes (toLowerCase name) (toLowerCase search) then Some true
      else
        match cert !! "issuingOrganization" with
        | None => None
        | Some org =>
            if includes (toLowerCase org) (toLowerCase search) then Some true
            else
              Some (match cert !! "credentialId" with
                    | Some cid =>
                        includes (toLowerCase cid) (toLowerCase search)
                    | None => false
                    end)
        end
  end.

Definition keeps `{DateFns} `{Casing} (search : string)
    (statusFilter : StatusFilter) (cert : obj) : option bool :=
  match matchesSearch search cert with
  | None => None
  | Some false => Some false
  | Some true =>
      let days := daysLeft cert in
      Some (match statusFilter with
            | active => num_gt days 90
            | expiring => num_gt days 0 && num_le days 90
            | expired => num_lt days 0
            | all => true
            end)
  end.

Definition filteredCertifications `{DateFns} `{Casing} (search : string)
    (statusFilter : StatusFilter) (certifications : list obj)
    : option (list obj) :=
  filter_throwing (keeps search statusFilter) certifications.

End UserCertifications.

(** ** A concrete calendar: dates in UTC, as milliseconds since the epoch *)

Module UTC.

Definition digit (a : ascii) : option Z :=
  let n := nat_of_ascii a in
  if (48 <=? n)%nat && (n <=? 57)%nat then Some (Z.of_nat n - 48)%Z else None.

Definition is_leap (y : Z) : bool :=
  ((y mod 4 =? 0) && negb (y mod 100 =? 0) || (y mod 400 =? 0))%Z.

Definition days_in_month (y m : Z) : Z :=
  if (m =? 2)%Z then (if is_leap y then 29 else 28)%Z
  else if ((m =? 4) || (m =? 6) || (m =? 9) || (m =? 11))%Z then 30%Z
  else 31%Z.

(** Days from 1970-01-01 to the civil date [y]-[m]-[d]. *)
Definition days_from_civil (y m d : Z) : Z :=
  (let y' := if m <=? 2 then y - 1 else y in
   let era := y' / 400 in
   let yoe := y' - era * 400 in
   let mp := if 2 <? m then m - 3 else m + 9 in
   let doy := (153 * mp + 2) / 5 + d - 1 in
   let doe := yoe * 365 + yoe / 4 - yoe / 100 + doy in
   era * 146097 + doe - 719468)%Z.

Definition ms_per_day : Z := 86400000.

(** A calendar date [YYYY-MM-DD] as the instant of its midnight; anything
    else, and [undefined], as the invalid date. *)
Definition parse_date (s : string) : option Z :=
  match s with
  | String y1 (String y2 (String y3 (String y4 (String "-"
    (String m1 (String m2 (String "-"
    (String d1 (String d2 EmptyString))))))))) =>
      a ← digit y1; b ← digit y2; c ← digit y3; d ← digit y4;
      e ← digit m1; f ← digit m2; g ← digit d1; h ← digit d2;
      let y := (a * 1000 + b * 100 + c * 10 + d)%Z in
      let m := (e * 10 + f)%Z in
      let dd := (g * 10 + h)%Z in
      if ((1 <=? m) && (m <=? 12) && (1 <=? dd)
          && (dd <=? days_in_month y m))%Z
      then Some (days_from_civil y m dd * ms_per_day)%Z
      else None
  | _ => None
  end.

(** Whole days from [r] to [l], rounded towards zero. *)
Definition whole_days (l r : option Z) : number :=
  match l, r with
  | Some a, Some b => Some (Z.quot (a - b) ms_per_day)
  | _, _ => None
  end.

(** The calendar at the instant [t] (milliseconds since the epoch). *)
Definition at_instant (t : Z) : DateFns :=
  {| Date := option Z;
     parseISO := λ s, s ≫= parse_date;
     differenceInDays := whole_days;
     now := Some t |}.

End UTC.

(** ** [App.tsx]: the routes and their guard *)

Module App.

(** The [Route] of the [Switch] that matches the location. *)
Inductive route : Type :=
  | Root                     (* "/" *)
  | Admin                    (* "/admin" *)
  | AdminCertifications      (* "/admin/certifications" *)
  | AdminUsers               (* "/admin/users" *)
  | AdminExpiring            (* "/admin/expiring" *)
  | Dashboard                (* "/dashboard" *)
  | DashboardCertifications  (* "/dashboard/certifications" *)
  | DashboardRenewals        (* "/dashboard/renewals" *)
  | Fallback.

(** What a component returns: the loading spinner, a [<Redirect to=.../>], or
    a page, named by its component. *)
Inductive outcome : Type :=
  | Spinner
  | Redirect (to : string)
  | Render (page : string).

(** [useAuth()]: [user] is [None] when nobody is logged in. *)
Record Auth : Type := {
  user : option obj;
  isLoading : bool
}.

Definition ProtectedRoute (auth : Auth) (children : string)
    (requiredRole : option string) : outcome :=
  if auth.(isLoading) then Spinner
  else
    match auth.(user) with
    | None => Redirect "/"
    | Some user =>
        if negb (falsy requiredRole)
           && bool_decide (user !! "role" ≠ requiredRole)
        then
          if bool_decide (user !! "role" = Some "admin")
          then Redirect "/admin"
          else Redirect "/dashboard"
        else Render children
    end.

Definition Router (auth : Auth) (r : route) : outcome :=
  if auth.(isLoading) then Spinner
  else
    match r with
    | Root =>
        match auth.(user) with
        | Some user =>
            if bool_decide (user !! "role" = Some "admin")
            then Redirect "/admin"
            else Redirect "/dashboard"
        | None => Render "Login"
        end
    | Admin => ProtectedRoute auth "AdminDashboard" (Some "admin")
    | AdminCertifications =>
        ProtectedRoute auth "AdminCertifications" (Some "admin")
    | AdminUsers => ProtectedRoute auth "AdminUsers" (Some "admin")
    | AdminExpiring => ProtectedRoute auth "AdminExpiring" (Some "admin")
    | Dashboard => ProtectedRoute auth "UserDashboard" (Some "user")
    | DashboardCertifications =>
        ProtectedRoute auth "UserCertifications" (Some "user")
    | DashboardRenewals => ProtectedRoute auth "UserRenewals" (Some "user")
    | Fallback => Render "NotFound"
    end.

(** The route that a path written in the program (a redirect target, a
    sidebar link) leads to: each is one of the route paths, letter for
    letter. *)
Definition route_of (path : string) : route :=
  if decide (path = "/") then Root
  else if decide (path = "/admin") then Admin
  else if decide (path = "/admin/certifications") then AdminCertifications
  else if decide (path = "/admin/users") then AdminUsers
  else if decide (path = "/admin/expiring") then AdminExpiring
  else if decide (path = "/dashboard") then Dashboard
  else if decide (path = "/dashboard/certifications")
       then DashboardCertifications
  else if decide (path = "/dashboard/renewals") then DashboardRenewals
  else Fallback.

(** Follow redirects from [r], at most [fuel] of them. *)
Fixpoint settle (fuel : nat) (auth : Auth) (r : route) : outcome :=
  match Router auth r with
  | Redirect to =>
      match fuel with
      | O => Redirect to
      | S fuel' => settle fuel' auth (route_of to)
      end
  | other => other
  end.

Definition admin_pages : list string :=
  ["AdminDashboard"; "AdminCertifications"; "AdminUsers"; "AdminExpiring"].

Definition user_pages : list string :=
  ["UserDashboard"; "UserCertifications"; "UserRenewals"].

End App.

(** ** [app-sidebar.tsx]: the menu of the logged-in user *)

Module Sidebar.

Record MenuItem : Type := { title : string; url : string }.

Definition adminMenuItems : list MenuItem :=
  [ {| title := "Dashboard"; url := "/admin" |};
    {| title := "All Certifications"; url := "/admin/certifications" |};
    {| title := "Users"; url := "/admin/users" |};
    {| title := "Expiring Soon"; url := "/admin/expiring" |} ].

Definition userMenuItems : list MenuItem :=
  [ {| title := "My Dashboard"; url := "/dashboard" |};
    {| title := "My Certifications"; url := "/dashboard/certifications" |};
    {| title := "Upcoming Renewals"; url := "/dashboard/renewals" |} ].

(** [user?.role === "admin"] *)
Definition isAdmin (user : option obj) : bool :=
  bool_decide (user ≫= (λ u, u !! "role") = Some "admin").

Definition menuItems (user : option obj) : list MenuItem :=
  if isAdmin user then adminMenuItems else userMenuItems.

Definition basePath (user : option obj) : string :=
  if isAdmin user then "/admin" else "/dashboard".

End Sidebar.

(** ** The menu of a certification card *)

Module CardMenu.


(** [showActions && ... certification.certificateUrl && ...]: whether the
    card offers "View Certificate". *)
Definition offersCertificate (showActions : bool) (certification : obj)
    : bool :=
  showActions && negb (falsy (certification !! "certificateUrl")).

End CardMenu.

(** ** The list of all certifications of the admin: the badge of a row *)

Module AdminCertifications.

Record Badge : Type := { label : string; variant : string }.

Definition getStatusInfo `{DateFns} (cert : obj) : Badge :=
  let days := daysLeft cert in
  if num_lt days 0 then {| label := "Expired"; variant := "destructive" |}
  else if num_le days 30 then
    {| label := show_number days +:+ "d left"; variant := "destructive" |}
  else if num_le days 90 then
    {| label := show_number days +:+ "d left"; variant := "secondary" |}
  else {| label := "Active"; variant := "default" |}.

End AdminCertifications.

(** ** The admin page of expiring certifications: the time filter *)

Module AdminExpiringList.

Inductive TimeFilter : Type := d30 | d60 | d90 | expired | all.

(** The callback that [getExpiringCerts] passes to [filter]. *)
Definition shown `{DateFns} (timeFilter : TimeFilter) (cert : obj) : bool :=
  let days := daysLeft cert in
  match timeFilter with
  | d30 => num_gt days 0 && num_le days 30
  | d60 => num_gt days 0 && num_le days 60
  | d90 => num_gt days 0 && num_le days 90
  | expired => num_lt days 0
  | all => num_le days 90
  end.

End AdminExpiringList.

(** ** The admin page of users: [regularUsers] and [getUserStats] *)

Module AdminUsers.

Record UserStats : Type := {
  total : nat;
  active : nat;
  expiring : nat;
  expired : nat
}.

Definition regularUsers (users : list obj) : list obj :=
  filter (λ u : obj, u !! "role" = Some "user") users.

(** With every reading of the clock returning [now]; for a clock that
    moves on see [AdminUsersClock.getUserStats]. *)
Definition getUserStats `{DateFns} (certifications : list obj)
    (userId : string) : UserStats :=
  let userCerts :=
    filter (λ c : obj, c !! "userId" = Some userId) certifications in
  {| total := length userCerts;
     active := length (filter (λ c, let days := daysLeft c in
                 num_gt days 90) userCerts);
     expiring := length (filter (λ c, let days := daysLeft c in
                 num_gt days 0 && num_le days 90) userCerts);
     expired := length (filter (λ c, let days := daysLeft c in
                 num_lt days 0) userCerts) |}.

End AdminUsers.

(** ** Sequences of registrations, and what they keep true *)

(** Run [registerLocal] for each entry in turn; a call that throws leaves
    the store to the next one. *)
Definition register_all (regs : list LocalAuth.Registration)
    (s : LocalAuth.store) : LocalAuth.store :=
  foldl (λ s data, (LocalAuth.registerLocal data s).2) s regs.

(** Every stored user has an id among "1", ..., "n" for [n] users, and no
    two users share an id. *)
Definition ids_numbered (users : gmap string obj) : Prop :=
  ∀ name u, users !! name = Some u →
    ∃ k : nat, (1 ≤ k ≤ size users)%nat ∧ u !! "id" = Some (pretty k).

Definition ids_unique (users : gmap string obj) : Prop :=
  ∀ n1 n2 u1 u2,
    users !! n1 = Some u1 → users !! n2 = Some u2 →
    u1 !! "id" = u2 !! "id" → n1 = n2.

(** ** The counting views, with the clock read in every callback *)

(** Every filter callback of the counting views calls [new Date()] itself,
    so one evaluation reads the clock once per certification and pass.
    [clock k] is what the [k]-th of these calls returns.  The definitions
    above, which take the one instant [now], are these with a clock that
    returns [now] at every call. *)

(** [differenceInDays(parseISO(c.expirationDate), t)] for [t = new Date()]. *)
Definition daysLeftAt `{DateFns} (t : Date) (c : obj) : number :=
  differenceInDays (parseISO (c !! "expirationDate")) t.

(** [l.filter(cb)] for a callback that reads the clock once: the element at
    position [i] is tested with the call number [k + i]. *)
Fixpoint filter_reading `{DateFns} {A} (clock : nat → Date)
    (p : Date → A → bool) (k : nat) (l : list A) : list A :=
  match l with
  | [] => []
  | x :: l' =>
      if p (clock k) x then x :: filter_reading clock p (S k) l'
      else filter_reading clock p (S k) l'
  end.

Module RenewalsClock.

Definition categorizedCerts `{DateFns} (clock : nat → Date)
    (certifications : list obj) : Renewals.Categorized :=
  let n := length certifications in
  {| Renewals.expired :=
       filter_reading clock (λ t c, let days := daysLeftAt t c in
         num_lt days 0) 0 certifications;
     Renewals.critical :=
       filter_reading clock (λ t c, let days := daysLeftAt t c in
         num_ge days 0 && num_le days 30) n certifications;
     Renewals.warning :=
       filter_reading clock (λ t c, let days := daysLeftAt t c in
         num_gt days 30 && num_le days 60) (2 * n) certifications;
     Renewals.upcoming :=
       filter_reading clock (λ t c, let days := daysLeftAt t c in
         num_gt days 60 && num_le days 90) (3 * n) certifications |}.

Definition totalNeedingAttention `{DateFns} (clock : nat → Date)
    (certifications : list obj) : nat :=
  let cats := categorizedCerts clock certifications in
  length (Renewals.expired cats) + length (Renewals.critical cats)
  + length (Renewals.warning cats) + length (Renewals.upcoming cats).

End RenewalsClock.

Module DashboardClock.

Definition stats `{DateFns} (clock : nat → Date)
    (certifications : list obj) : Dashboard.Stats :=
  let n := length certifications in
  {| Dashboard.total := n;
     Dashboard.active :=
       length (filter_reading clock (λ t c, let days := daysLeftAt t c in
         num_gt days 90) 0 certifications);
     Dashboard.expiringSoon :=
       length (filter_reading clock (λ t c, let days := daysLeftAt t c in
         num_gt days 0 && num_le days 90) n certifications);
     Dashboard.expired :=
       length (filter_reading clock (λ t c, let days := daysLeftAt t c in
         num_lt days 0) (2 * n) certifications) |}.

End DashboardClock.

Module AdminExpiringClock.

Definition stats `{DateFns} (clock : nat → Date)
    (certifications : list obj) : AdminExpiring.Stats :=
  let n := length certifications in
  {| AdminExpiring.within30 :=
       length (filter_reading clock (λ t c, let days := daysLeftAt t c in
         num_gt days 0 && num_le days 30) 0 certifications);
     AdminExpiring.within60 :=
       length (filter_reading clock (λ t c, let days := daysLeftAt t c in
         num_gt days 30 && num_le days 60) n certifications);
     AdminExpiring.within90 :=
       length (filter_reading clock (λ t c, let days := daysLeftAt t c in
         num_gt days 60 && num_le days 90) (2 * n) certifications);
     AdminExpiring.expired :=
       length (filter_reading clock (λ t c, let days := daysLeftAt t c in
         num_lt days 0) (3 * n) certifications) |}.

End AdminExpiringClock.

Module AdminUsersClock.

Definition getUserStats `{DateFns} (clock : nat → Date)
    (certifications : list obj) (userId : string) : AdminUsers.UserStats :=
  let userCerts :=
    filter (λ c : obj, c !! "userId" = Some userId) certifications in
  let n := length userCerts in
  {| AdminUsers.total := n;
     AdminUsers.active :=
       length (filter_reading clock (λ t c, let days := daysLeftAt t c in
         num_gt days 90) 0 userCerts);
     AdminUsers.expiring :=
       length (filter_reading clock (λ t c, let days := daysLeftAt t c in
         num_gt days 0 && num_le days 90) n userCerts);
     AdminUsers.expired :=
       length (filter_reading clock (λ t c, let days := daysLeftAt t c in
         num_lt days 0) (2 * n) userCerts) |}.

End AdminUsersClock.

(** ** Sample data *)

Module Sample.

Definition aws : obj :=
  <["id" := "c-1"]> (<["userId" := "2"]>
  (<["name" := "AWS Solutions Architect"]>
  (<["issuingOrganization" := "Amazon"]>
  (<["credentialId" := "AWS-123"]>
  (<["issueDate" := "2025-11-01"]>
  (<["expirationDate" := "2026-11-01"]>
  (<["notes" := "renew early"]> ∅))))))).

Definition pmp : obj :=
  <["id" := "c-2"]> (<["userId" := "1"]>
  (<["name" := "PMP"]>
  (<["issuingOrganization" := "PMI"]>
  (<["credentialId" := ""]>
  (<["issueDate" := "2024-06-30"]>
  (<["expirationDate" := "2027-06-30"]> ∅)))))).

Definition certs : LocalData.store := Stored [aws; pmp].

(** The fields of the form for a new certification, all optional ones left
    out. *)
Definition new_cert : partial :=
  <["userId" := Some "2"]> (<["name" := Some "CKA"]>
  (<["issuingOrganization" := Some "CNCF"]>
  (<["issueDate" := Some "2026-01-15"]>
  (<["expirationDate" := Some "2029-01-15"]> ∅)))).

(** 2026-11-01, 12:00 UTC. *)
Definition noon_2026_11_01 : Z := 1793491200000 + 43200000.

Definition eve : LocalAuth.Registration :=
  {| LocalAuth.username := "eve"; LocalAuth.password := "s3cret";
     LocalAuth.fullName := "Eve Adams"; LocalAuth.email := "eve@example.com" |}.

Definition eve_again : LocalAuth.Registration :=
  {| LocalAuth.username := "eve"; LocalAuth.password := "other";
     LocalAuth.fullName := "Eve B."; LocalAuth.email := "eve2@example.com" |}.

(** A registration under the name of a member of [Object.prototype]. *)
Definition toString_reg : LocalAuth.Registration :=
  {| LocalAuth.username := "toString"; LocalAuth.password := "pw";
     LocalAuth.fullName := "To String"; LocalAuth.email := "ts@example.com" |}.

Definition bob : LocalAuth.Registration :=
  {| LocalAuth.username := "bob"; LocalAuth.password := "hunter2";
     LocalAuth.fullName := "Bob Brown"; LocalAuth.email := "bob@example.com" |}.

(** A stored record that lost its name (an update with [name: undefined]). *)
Definition nameless : obj := delete "name" pmp.

Definition admin_user : obj :=
  LocalAuth.mkUser "1" "admin" "Administrator" "admin@example.com" "admin".

Definition john_user : obj :=
  LocalAuth.mkUser "2" "john" "John Doe" "john@example.com" "user".

Definition guest_user : obj :=
  LocalAuth.mkUser "9" "gus" "Gus Guest" "gus@example.com" "guest".

(** A clock whose first reading is 2027-03-31, 00:00 UTC, and whose later
    readings are one millisecond after it. *)
Definition clock_over_midnight (k : nat) : option Z :=
  Some (UTC.days_from_civil 2027 3 31 * UTC.ms_per_day
        + (if decide (k = 0%nat) then 0 else 1))%Z.

Definition session (u : obj) : App.Auth :=
  {| App.user := Some u; App.isLoading := false |}.

End Sample.

(** * Properties *)

(** ** The certification repository *)

Section LocalDataFacts.
Import LocalData.

Implicit Types (s : store) (c old : obj) (data : partial) (id u : string).

Lemma certs_of_loaded s : certs_of (loadCerts s).2 = certs_of s.
Proof. by destruct s. Qed.

Lemma loadCerts_certs_of s : (loadCerts s).1 = inr (certs_of s).
Proof. by destruct s. Qed.

Lemma loaded_unless_missing s : s ≠ Missing → (loadCerts s).2 = s.
Proof. by destruct s. Qed.

Lemma getAllCertifications_certs_of s :
  (getAllCertifications s).1 = inr (certs_of s).
Proof. apply loadCerts_certs_of. Qed.

Lemma lookup_spread old data k :
  spread old data !! k
  = match data !! k with Some v => v | None => old !! k end.
Proof.
  unfold spread. rewrite lookup_merge.
  by destruct (old !! k), (data !! k).
Qed.

Lemma spread_singleton old k v :
  spread old {[ k := Some v ]} = <[ k := v ]> old.
Proof.
  apply map_eq; intros j. rewrite lookup_spread.
  destruct (decide (k = j)) as [->|Hne].
  - by rewrite lookup_singleton_eq, lookup_insert_eq.
  - by rewrite lookup_singleton_ne, lookup_insert_ne.
Qed.

Lemma findIndex_Some {A} (P : A → Prop) `{∀ x, Decision (P x)} l i :
  findIndex P l = Some i ↔ ∃ x, list_find P l = Some (i, x).
Proof.
  unfold findIndex. destruct (list_find P l) as [[j x]|]; simpl.
  - split; [intros [= ->]; eauto | by intros [? [= -> ->]]].
  - split; [done | by intros [? ?]].
Qed.

Lemma findIndex_None {A} (P : A → Prop) `{∀ x, Decision (P x)} l :
  findIndex P l = None ↔ list_find P l = None.
Proof. unfold findIndex. by destruct (list_find P l). Qed.

(** A store that holds a record with the given id has a first such record. *)
Lemma first_with_id s id :
  (∃ c, c ∈ certs_of s ∧ c !! "id" = Some id) →
  ∃ idx old, list_find (λ c : obj, c !! "id" = Some id) (certs_of s)
             = Some (idx, old).
Proof.
  intros (c & Hin & Hid).
  destruct (list_find (λ c : obj, c !! "id" = Some id) (certs_of s))
    as [[idx old]|] eqn:Hf; [eauto |].
  apply list_find_None in Hf.
  rewrite Forall_forall in Hf. by destruct (Hf c Hin).
Qed.

Lemma updateCertification_found s id data idx old :
  list_find (λ c : obj, c !! "id" = Some id) (certs_of s) = Some (idx, old) →
  updateCertification id data s
  = (inr (spread old data),
     Stored (<[idx := spread old data]> (certs_of s))).
Proof.
  intros Hf. pose proof Hf as Hf'.
  apply list_find_Some in Hf' as (Hl & _ & _).
  unfold updateCertification, bind.
  destruct s as [| |l]; unfold certs_of in *; simpl in *; try done.
  unfold findIndex. rewrite Hf. simpl. by rewrite Hl.
Qed.

Lemma updateCertification_absent s id data :
  list_find (λ c : obj, c !! "id" = Some id) (certs_of s) = None →
  updateCertification id data s = (inl NotFound, (loadCerts s).2).
Proof.
  intros Hf. unfold updateCertification, bind.
  destruct s as [| |l]; unfold certs_of in *; simpl in *; try done.
  unfold findIndex. by rewrite Hf.
Qed.

(** Replacing the first record that satisfies [P] by another one that
    satisfies [P] leaves it the first. *)
Lemma list_find_insert_same {A} (P : A → Prop) `{∀ x, Decision (P x)}
    (l : list A) i x y :
  list_find P l = Some (i, x) → P y →
  list_find P (<[i := y]> l) = Some (i, y).
Proof.
  intros Hf Hy. apply list_find_Some in Hf as (Hl & Hx & Hbefore).
  apply list_find_Some. split_and!.
  - apply list_lookup_insert_eq. by eapply lookup_lt_Some.
  - done.
  - intros j z Hj Hlt. rewrite list_lookup_insert_ne in Hj by lia.
    by eapply Hbefore.
Qed.

Lemma filter_all {A} (P : A → Prop) `{∀ x, Decision (P x)} (l : list A) :
  (∀ x, x ∈ l → P x) → filter P l = l.
Proof.
  induction l as [|x l IH]; intros Hall; [done |].
  rewrite filter_cons_True by (apply Hall; by left).
  f_equal. apply IH. intros y Hy. apply Hall. by right.
Qed.

End LocalDataFacts.

Section CertificationClaims.
Import LocalData.

Implicit Types (s : store) (c old : obj) (data : partial) (id u : string).

Lemma createCertification_stored uuid today data s :
  ∃ c, createCertification uuid today data s
       = (inr c, Stored (certs_of s ++ [c])%list)
     ∧ c !! "id" = Some uuid
     ∧ c !! "userId" = Some (or_else (pget data "userId") "")
     ∧ c !! "credentialId" = Some (or_else (pget data "credentialId") "")
     ∧ c !! "certificateUrl" = None
     ∧ c !! "notes" = None.
Proof.
  unfold createCertification, bind, saveCerts, ret.
  destruct s; simpl; (eexists; split; [reflexivity |]).
  all: split_and!.
  all: try by rewrite lookup_insert_eq.
  all: try by (rewrite lookup_insert_ne by done; rewrite lookup_insert_eq).
  all: try by (do 4 (rewrite lookup_insert_ne by done);
               rewrite lookup_insert_eq).
  all: by repeat (rewrite lookup_insert_ne by done).
Qed.

(** As long as [uuidv4()] returns an id that no stored record carries, the
    created record is listed and is the only one with its id. *)
Lemma createCertification_fresh uuid today data s :
  (∀ c, c ∈ certs_of s → c !! "id" ≠ Some uuid) →
  ∃ c, (createCertification uuid today data s).1 = inr c
     ∧ c ∈ certs_of (createCertification uuid today data s).2
     ∧ ∀ c', c' ∈ certs_of s → c' !! "id" ≠ c !! "id".
Proof.
  intros Hfresh.
  destruct (createCertification_stored uuid today data s)
    as (c & -> & Hid & _).
  exists c. split_and!; [done | |].
  - unfold certs_of; simpl. set_solver.
  - intros c' Hin. rewrite Hid. by apply Hfresh.
Qed.

(** C3 (fails on the code).  Whatever the partial input holds, the record
    that [createCertification] stores and returns defaults only
    [credentialId]: it has no [certificateUrl] and no [notes] property at
    all, so these are [undefined] and not the empty string, and values
    supplied for them are dropped. *)
Theorem createCertification_omits_certificateUrl_and_notes
    uuid today data s :
  ∃ c, (createCertification uuid today data s).1 = inr c
     ∧ certs_of (createCertification uuid today data s).2
       = (certs_of s ++ [c])%list
     ∧ c !! "credentialId" = Some (or_else (pget data "credentialId") "")
     ∧ c !! "certificateUrl" ≠ Some ""
     ∧ c !! "notes" ≠ Some ""
     ∧ c !! "certificateUrl" = None
     ∧ c !! "notes" = None.
Proof.
  destruct (createCertification_stored uuid today data s)
    as (c & -> & _ & _ & Hcred & Hurl & Hnotes).
  exists c. rewrite Hurl, Hnotes. by split_and!.
Qed.

Example createCertification_new_cert :
  createCertification "7b0e" "2026-11-01" Sample.new_cert (Stored [])
  = (inr (<["id" := "7b0e"]> (<["credentialId" := ""]>
            (spread ∅ Sample.new_cert))),
     Stored [<["id" := "7b0e"]> (<["credentialId" := ""]>
            (spread ∅ Sample.new_cert))]).
Proof. reflexivity. Qed.

(** C4.  Updating only [expirationDate] of a stored id returns, and stores
    in place of the first record with that id, the old record with
    [expirationDate] set: every other property keeps its value, reading the
    id afterwards finds the updated record, and the records at all other
    positions are the same.  When no record has the id the call throws
    [NotFound] and the store holds what it held. *)
Theorem updateCertification_expirationDate s id X :
  let r := updateCertification id {[ "expirationDate" := Some X ]} s in
  ((∃ c, c ∈ certs_of s ∧ c !! "id" = Some id) →
   ∃ idx old c',
     list_find (λ c : obj, c !! "id" = Some id) (certs_of s)
       = Some (idx, old)
     ∧ r.1 = inr c'
     ∧ c' !! "expirationDate" = Some X
     ∧ (∀ k, k ≠ "expirationDate" → c' !! k = old !! k)
     ∧ list_find (λ c : obj, c !! "id" = Some id) (certs_of r.2)
       = Some (idx, c')
     ∧ length (certs_of r.2) = length (certs_of s)
     ∧ (∀ j, j ≠ idx → certs_of r.2 !! j = certs_of s !! j))
  ∧ ((∀ c, c ∈ certs_of s → c !! "id" ≠ Some id) →
     r.1 = inl NotFound
     ∧ certs_of r.2 = certs_of s
     ∧ (s ≠ Missing → r.2 = s)).
Proof.
  intros r. subst r. split.
  - intros Hex. destruct (first_with_id s id Hex) as (idx & old & Hf).
    rewrite (updateCertification_found _ _ _ _ _ Hf), spread_singleton.
    exists idx, old, (<["expirationDate" := X]> old). simpl.
    pose proof Hf as (Hl & Hid & _)%list_find_Some.
    split_and!; try done.
    + by rewrite lookup_insert_eq.
    + intros k Hk. by rewrite lookup_insert_ne.
    + unfold certs_of at 1; simpl.
      apply list_find_insert_same with (x := old); [done |].
      by rewrite lookup_insert_ne.
    + unfold certs_of at 1; simpl. by rewrite length_insert.
    + intros j Hj. unfold certs_of at 1; simpl.
      by rewrite list_lookup_insert_ne.
  - intros Hnone.
    assert (list_find (λ c : obj, c !! "id" = Some id) (certs_of s) = None)
      as Hf by (apply list_find_None, Forall_forall; auto).
    rewrite (updateCertification_absent _ _ _ Hf). simpl.
    split_and!; [done | apply certs_of_loaded | apply loaded_unless_missing].
Qed.

(** C10.  [updateCertification] copies every key of the partial onto the
    first record with the id, whichever key it is ([id] and [userId]
    included), and keeps the keys the partial lacks. *)
Theorem updateCertification_copies_every_key s id data :
  (∃ c, c ∈ certs_of s ∧ c !! "id" = Some id) →
  ∃ idx old c',
    list_find (λ c : obj, c !! "id" = Some id) (certs_of s) = Some (idx, old)
    ∧ (updateCertification id data s).1 = inr c'
    ∧ certs_of (updateCertification id data s).2 !! idx = Some c'
    ∧ (∀ k v, data !! k = Some v → c' !! k = v)
    ∧ (∀ k, data !! k = None → c' !! k = old !! k).
Proof.
  intros Hex. destruct (first_with_id s id Hex) as (idx & old & Hf).
  rewrite (updateCertification_found _ _ _ _ _ Hf). simpl.
  exists idx, old, (spread old data).
  pose proof Hf as (Hl & _ & _)%list_find_Some.
  split_and!; try done.
  - unfold certs_of at 1; simpl.
    apply list_lookup_insert_eq. by eapply lookup_lt_Some.
  - intros k v Hk. by rewrite lookup_spread, Hk.
  - intros k Hk. by rewrite lookup_spread, Hk.
Qed.

(** The owner and the id of a stored certification are reassigned by an
    update like any other field. *)
Example updateCertification_reassigns_owner :
  Sample.aws !! "userId" = Some "2"
  ∧ updateCertification "c-1"
      (<["userId" := Some "1"]> {[ "id" := Some "c-9" ]}) Sample.certs
    = (inr (<["userId" := "1"]> (<["id" := "c-9"]> Sample.aws)),
       Stored [<["userId" := "1"]> (<["id" := "c-9"]> Sample.aws);
               Sample.pmp]).
Proof. split; reflexivity. Qed.

(** C7.  [deleteCertification] never throws; afterwards no stored record has
    the id and the other records are kept in order; deleting the same id
    again leaves the store as the first deletion left it; and when no record
    has the id, the store holds what it held. *)
Theorem deleteCertification_idempotent s id :
  let r1 := deleteCertification id s in
  let r2 := deleteCertification id r1.2 in
  r1.1 = inr ()
  ∧ certs_of r1.2 = filter (λ c : obj, c !! "id" ≠ Some id) (certs_of s)
  ∧ (∀ c, c ∈ certs_of r1.2 → c !! "id" ≠ Some id)
  ∧ r2.1 = inr ()
  ∧ r2.2 = r1.2
  ∧ ((∀ c, c ∈ certs_of s → c !! "id" ≠ Some id) →
     certs_of r1.2 = certs_of s).
Proof.
  intros r1 r2.
  assert (r1 = (inr (), Stored (filter (λ c : obj, c !! "id" ≠ Some id)
                                   (certs_of s)))) as Hr1
    by (subst r1; by destruct s).
  subst r2. rewrite Hr1. simpl. unfold certs_of at 1 2 4; simpl.
  split_and!; try done.
  - intros c Hin. by apply list_elem_of_filter in Hin as [? _].
  - unfold deleteCertification, bind; simpl.
    by rewrite list_filter_filter, (list_filter_iff _ (λ c : obj, c !! "id" ≠ Some id))
      by tauto.
  - apply filter_all.
Qed.

(** C8, as the claim states it, fails at the empty user id: a certification
    created without a user id is stored with the user id [""], and
    [getCertificationsByUser("")] returns no record, so it does not return
    the stored records whose [userId] equals its argument. *)
Lemma getCertificationsByUser_empty_id_lists_nothing :
  let s := (createCertification "7b0e" "2026-11-01"
              {[ "name" := Some "CKA" ]} (Stored [])).2 in
  (∃ c, c ∈ certs_of s ∧ c !! "userId" = Some "")
  ∧ (getCertificationsByUser (Some "") s).1 = inr []
  ∧ ¬ (∀ s u, ∃ l,
         (getCertificationsByUser (Some u) s).1 = inr l
         ∧ ∀ c : obj, c ∈ l ↔ c ∈ certs_of s ∧ c !! "userId" = Some u).
Proof.
  intros s.
  assert (∃ c, c ∈ certs_of s ∧ c !! "userId" = Some "") as Hstored.
  { eexists. split; [left | reflexivity]. }
  split; [exact Hstored |]. split; [reflexivity |].
  intros Hclaim. destruct (Hclaim s "") as (l & Hl & Hin).
  injection Hl as <-. destruct Hstored as (c & Hc & Hu).
  by apply (not_elem_of_nil c), Hin.
Qed.

(** C8, amended.  For a non-empty user id, [getCertificationsByUser] returns the
    stored certifications whose [userId] is that id, in stored order; for an
    absent id (and for the empty string) it returns the empty array. *)
Theorem getCertificationsByUser_exact s :
  (∀ u, u ≠ "" →
     ∃ all l,
       (getAllCertifications s).1 = inr all
       ∧ (getCertificationsByUser (Some u) s).1 = inr l
       ∧ l = filter (λ c : obj, c !! "userId" = Some u) all
       ∧ (∀ c, c ∈ l ↔ c ∈ all ∧ c !! "userId" = Some u))
  ∧ (getCertificationsByUser None s).1 = inr []
  ∧ (getCertificationsByUser (Some "") s).1 = inr [].
Proof.
  split_and!; [| by destruct s ..].
  intros u Hu. exists (certs_of s), (filter (λ c : obj, c !! "userId" = Some u) (certs_of s)).
  split_and!; [apply getAllCertifications_certs_of | | done |].
  - unfold getCertificationsByUser, bind, falsy.
    rewrite bool_decide_eq_false_2 by done. by destruct s.
  - intros c. rewrite list_elem_of_filter. tauto.
Qed.

End CertificationClaims.

Section CertificationWitnesses.
Import LocalData.

Lemma updateCertification_expirationDate_witness :
  let r := updateCertification "c-1"
             {[ "expirationDate" := Some "2028-11-01" ]} Sample.certs in
  let r' := updateCertification "c-7"
             {[ "expirationDate" := Some "2028-11-01" ]} Sample.certs in
  (∃ c : obj, c ∈ certs_of Sample.certs ∧ c !! "id" = Some "c-1")
  ∧ (∃ idx old c',
       list_find (λ c : obj, c !! "id" = Some "c-1") (certs_of Sample.certs)
         = Some (idx, old)
       ∧ r.1 = inr c'
       ∧ c' !! "expirationDate" = Some "2028-11-01"
       ∧ (∀ k, k ≠ "expirationDate" → c' !! k = old !! k)
       ∧ list_find (λ c : obj, c !! "id" = Some "c-1") (certs_of r.2)
         = Some (idx, c')
       ∧ length (certs_of r.2) = length (certs_of Sample.certs)
       ∧ (∀ j, j ≠ idx → certs_of r.2 !! j = certs_of Sample.certs !! j))
  ∧ (∀ c : obj, c ∈ certs_of Sample.certs → c !! "id" ≠ Some "c-7")
  ∧ (r'.1 = inl NotFound
     ∧ certs_of r'.2 = certs_of Sample.certs
     ∧ (Sample.certs ≠ Missing → r'.2 = Sample.certs)).
Proof.
  intros r r'.
  assert (∃ c : obj, c ∈ certs_of Sample.certs ∧ c !! "id" = Some "c-1")
    as Hin by (exists Sample.aws; split; [left | reflexivity]).
  assert (∀ c : obj, c ∈ certs_of Sample.certs → c !! "id" ≠ Some "c-7")
    as Hout.
  { intros c Hc. apply list_elem_of_In in Hc.
    destruct Hc as [<-|[<-|[]]]; vm_compute; discriminate. }
  split; [exact Hin |].
  split; [exact (proj1 (updateCertification_expirationDate
                          Sample.certs "c-1" "2028-11-01") Hin) |].
  split; [exact Hout |].
  exact (proj2 (updateCertification_expirationDate
                  Sample.certs "c-7" "2028-11-01") Hout).
Defined.

Lemma updateCertification_copies_every_key_witness :
  let data : partial := {[ "userId" := Some "1" ]} in
  (∃ c : obj, c ∈ certs_of Sample.certs ∧ c !! "id" = Some "c-1")
  ∧ ∃ idx old c',
      list_find (λ c : obj, c !! "id" = Some "c-1") (certs_of Sample.certs)
        = Some (idx, old)
      ∧ (updateCertification "c-1" data Sample.certs).1 = inr c'
      ∧ certs_of (updateCertification "c-1" data Sample.certs).2 !! idx
        = Some c'
      ∧ (∀ k v, data !! k = Some v → c' !! k = v)
      ∧ (∀ k, data !! k = None → c' !! k = old !! k).
Proof.
  intros data.
  assert (∃ c : obj, c ∈ certs_of Sample.certs ∧ c !! "id" = Some "c-1")
    as Hin by (exists Sample.aws; split; [left | reflexivity]).
  split; [exact Hin |].
  exact (updateCertification_copies_every_key Sample.certs "c-1" data Hin).
Defined.

Lemma deleteCertification_idempotent_witness :
  let r1 := deleteCertification "c-7" Sample.certs in
  let r2 := deleteCertification "c-7" r1.2 in
  (∀ c : obj, c ∈ certs_of Sample.certs → c !! "id" ≠ Some "c-7")
  ∧ r1.1 = inr ()
  ∧ certs_of r1.2
    = filter (λ c : obj, c !! "id" ≠ Some "c-7") (certs_of Sample.certs)
  ∧ (∀ c : obj, c ∈ certs_of r1.2 → c !! "id" ≠ Some "c-7")
  ∧ r2.1 = inr ()
  ∧ r2.2 = r1.2
  ∧ certs_of r1.2 = certs_of Sample.certs.
Proof.
  intros r1 r2.
  assert (∀ c : obj, c ∈ certs_of Sample.certs → c !! "id" ≠ Some "c-7")
    as Hout.
  { intros c Hc. apply list_elem_of_In in Hc.
    destruct Hc as [<-|[<-|[]]]; vm_compute; discriminate. }
  destruct (deleteCertification_idempotent Sample.certs "c-7")
    as (H1 & H2 & H3 & H4 & H5 & H6).
  split; [exact Hout |].
  repeat (split; [assumption |]). exact (H6 Hout).
Defined.

Lemma getCertificationsByUser_exact_witness :
  "2" ≠ ""
  ∧ ∃ all l,
      (getAllCertifications Sample.certs).1 = inr all
      ∧ (getCertificationsByUser (Some "2") Sample.certs).1 = inr l
      ∧ l = filter (λ c : obj, c !! "userId" = Some "2") all
      ∧ (∀ c, c ∈ l ↔ c ∈ all ∧ c !! "userId" = Some "2").
Proof.
  assert ("2" ≠ "") as Hne by discriminate.
  split; [exact Hne |].
  exact (proj1 (getCertificationsByUser_exact Sample.certs) "2" Hne).
Defined.

Example getCertificationsByUser_john :
  (getCertificationsByUser (Some "2") Sample.certs).1 = inr [Sample.aws].
Proof. reflexivity. Qed.

End CertificationWitnesses.

(** ** The user repository *)

Section LocalAuthFacts.
Import LocalAuth.

Implicit Types (s : store) (users : gmap string obj) (user u : obj).

Lemma loadUsers_users_of s : (loadUsers s).1 = inr (users_of s).
Proof. by destruct s. Qed.

Lemma loadUsers_loaded s : loadUsers (loadUsers s).2 = loadUsers s.
Proof. by destruct s. Qed.

Lemma users_of_loaded s : users_of (loadUsers s).2 = users_of s.
Proof. by destruct s. Qed.

Lemma users_of_Stored users : users_of (Stored users) = users.
Proof. done. Qed.

Lemma publicUser_no_password user : publicUser user !! "password" = None.
Proof. apply lookup_delete_eq. Qed.

Lemma publicUser_other user k :
  k ≠ "password" → publicUser user !! k = user !! k.
Proof. intros Hk. by apply lookup_delete_ne. Qed.

Lemma get_prop_Own {A} (o : gmap string A) k a :
  get_prop o k = Own a ↔ o !! k = Some a.
Proof.
  unfold get_prop. destruct (o !! k); [| case_bool_decide]; naive_solver.
Qed.

Lemma get_prop_own_None {A} (o : gmap string A) k :
  o !! k = None → get_prop o k = Inherited ∨ get_prop o k = Undefined.
Proof. unfold get_prop. intros ->. case_bool_decide; auto. Qed.

(** The record [registerLocal] builds and stores for [data] when the store
    holds [users]. *)
Lemma registerLocal_run data s :
  registerLocal data s
  = match get_prop (users_of s) data.(username) with
    | Undefined =>
        let user :=
          <["password" := data.(password)]>
            (mkUser (pretty (size (users_of s) + 1)) data.(username)
               data.(fullName) data.(email) "user") in
        (inr (publicUser user),
         Stored (<[data.(username) := user]> (users_of s)))
    | _ => (inl Conflict, (loadUsers s).2)
    end.
Proof.
  unfold registerLocal, bind.
  destruct s; unfold users_of; simpl;
    by destruct (get_prop _ _).
Qed.

Lemma loginLocal_run data s :
  loginLocal data s
  = match users_of s !! data.(login_username) with
    | Some user =>
        if decide (user !! "password" = Some data.(login_password))
        then (inr (publicUser user), (loadUsers s).2)
        else (inl Unauthorized, (loadUsers s).2)
    | None => (inl Unauthorized, (loadUsers s).2)
    end.
Proof.
  unfold loginLocal, bind, get_prop.
  destruct s; unfold users_of; simpl;
    (destruct (_ !! login_username data) as [user|];
     [by repeat case_decide | by case_bool_decide]).
Qed.

End LocalAuthFacts.

Section UserClaims.
Import LocalAuth.

Implicit Types (s : store) (users : gmap string obj) (user u : obj).

(** C5, as the claim states it, fails on the legacy express route: the
    in-memory record of "admin" holds no password at all, and the route
    answers 200 with that record for a password that is not the demo one. *)
Lemma server_login_accepts_any_password :
  let r := Server.login (Some "admin") (Some "letmein") Server.users in
  (∃ user, Server.users !! "admin" = Some user
         ∧ user !! "password" ≠ Some "letmein"
         ∧ r = Server.Json 200 (Own user))
  ∧ r ≠ Server.Failure 401 "Invalid credentials".
Proof.
  split; [| by vm_compute].
  eexists. split; [reflexivity |]. split; [| reflexivity].
  by vm_compute.
Qed.

(** C5, amended.  [loginLocal] throws [Unauthorized] exactly when the user
    name is not a key of the stored users or the stored password differs
    from the supplied one (it throws nothing else), and when it returns, it
    returns the stored user of that name without the password.  The legacy
    express route, which keeps no passwords, answers 200 with the stored
    user for every known user name and every non-empty password. *)
Theorem login_unauthorized_iff :
  (∀ s data,
     let r := loginLocal data s in
     (r.1 = inl Unauthorized ↔
        users_of s !! data.(login_username) = None
        ∨ ∃ user, users_of s !! data.(login_username) = Some user
                ∧ user !! "password" ≠ Some data.(login_password))
     ∧ (∀ e, r.1 = inl e → e = Unauthorized)
     ∧ (∀ u, r.1 = inr u →
          ∃ user, users_of s !! data.(login_username) = Some user
                ∧ user !! "password" = Some data.(login_password)
                ∧ u = publicUser user))
  ∧ (∀ users name pw user,
       name ≠ "" → pw ≠ "" → users !! name = Some user →
       Server.login (Some name) (Some pw) users = Server.Json 200 (Own user)).
Proof.
  split.
  - intros s data r. subst r. rewrite loginLocal_run.
    destruct (users_of s !! login_username data) as [user|] eqn:Hu;
      [case_decide as Hpw |]; simpl.
    + split_and!; [| done |].
      * split; [done |]. intros [? | (user' & [= <-] & Hne)]; done.
      * intros u [= <-]. eauto.
    + split_and!; [| by intros e [= <-] | done].
      split; [| done]. intros _. right. eauto.
    + split_and!; [| by intros e [= <-] | done].
      split; [| done]. intros _. by left.
  - intros users name pw user Hname Hpw Hu.
    unfold Server.login, falsy.
    rewrite !bool_decide_eq_false_2 by done. simpl.
    apply get_prop_Own in Hu. rewrite Hu. by case_bool_decide.
Qed.

Lemma login_unauthorized_iff_witness :
  "john" ≠ "" ∧ "nope" ≠ ""
  ∧ (∃ user, Server.users !! "john" = Some user
           ∧ Server.login (Some "john") (Some "nope") Server.users
             = Server.Json 200 (Own user))
  ∧ (loginLocal {| login_username := "john"; login_password := "nope" |}
       Missing).1 = inl Unauthorized
  ∧ (∃ user, users_of Missing !! "john" = Some user
           ∧ user !! "password" = Some "user123"
           ∧ (loginLocal
                {| login_username := "john"; login_password := "user123" |}
                Missing).1 = inr (publicUser user)).
Proof.
  assert ("john" ≠ "") as H1 by discriminate.
  assert ("nope" ≠ "") as H2 by discriminate.
  pose proof login_unauthorized_iff as [Hlocal Hserver].
  split; [exact H1 |]. split; [exact H2 |]. split_and!.
  - eexists. split; [reflexivity |].
    by apply (Hserver Server.users "john" "nope" _ H1 H2).
  - apply (Hlocal Missing
             {| login_username := "john"; login_password := "nope" |}).
    right. eexists. split; [reflexivity |]. by vm_compute.
  - eexists. split; [reflexivity |]. split; reflexivity.
Defined.

(** C6.  A second [registerLocal] with the user name of a first one throws
    [Conflict] and leaves the store exactly as the first call left it; the
    record that the first call created is still stored, password included. *)
Theorem registerLocal_twice_conflict s (d1 d2 : Registration) :
  d2.(username) = d1.(username) →
  let r1 := registerLocal d1 s in
  let r2 := registerLocal d2 r1.2 in
  r2.1 = inl Conflict
  ∧ r2.2 = r1.2
  ∧ (∀ u, r1.1 = inr u →
       ∃ user, users_of r1.2 !! d1.(username) = Some user
             ∧ users_of r2.2 !! d1.(username) = Some user
             ∧ u = publicUser user
             ∧ user !! "password" = Some d1.(password)).
Proof.
  intros Hsame r1 r2. subst r1 r2.
  rewrite (registerLocal_run d1 s).
  destruct (get_prop (users_of s) (username d1)) as [user| |] eqn:Hp; simpl.
  - rewrite registerLocal_run, users_of_loaded, loadUsers_loaded, Hsame, Hp.
    by split_and!.
  - rewrite registerLocal_run, users_of_loaded, loadUsers_loaded, Hsame, Hp.
    by split_and!.
  - set (user := <["password" := password d1]> _).
    rewrite registerLocal_run, Hsame, !users_of_Stored.
    assert (get_prop (<[username d1 := user]> (users_of s)) (username d1)
            = Own user) as -> by apply get_prop_Own, lookup_insert_eq.
    simpl. rewrite !users_of_Stored.
    split_and!; [done | done |].
    intros u [= <-]. exists user.
    split_and!; [apply lookup_insert_eq .. | done | apply lookup_insert_eq].
Qed.

Lemma registerLocal_twice_conflict_witness :
  let r1 := registerLocal Sample.eve Missing in
  let r2 := registerLocal Sample.eve_again r1.2 in
  Sample.eve_again.(username) = Sample.eve.(username)
  ∧ (∃ u, r1.1 = inr u)
  ∧ r2.1 = inl Conflict
  ∧ r2.2 = r1.2
  ∧ (∀ u, r1.1 = inr u →
       ∃ user, users_of r1.2 !! Sample.eve.(username) = Some user
             ∧ users_of r2.2 !! Sample.eve.(username) = Some user
             ∧ u = publicUser user
             ∧ user !! "password" = Some Sample.eve.(password)).
Proof.
  intros r1 r2.
  assert (Sample.eve_again.(username) = Sample.eve.(username)) as Hsame
    by reflexivity.
  split; [exact Hsame |].
  split; [eexists; reflexivity |].
  exact (registerLocal_twice_conflict Missing Sample.eve Sample.eve_again
           Hsame).
Defined.

Lemma publicUser_iff user u :
  u = publicUser user
  ↔ u !! "password" = None ∧ ∀ k, k ≠ "password" → u !! k = user !! k.
Proof.
  split.
  - intros ->. split; [apply publicUser_no_password |].
    intros k Hk. by apply publicUser_other.
  - intros [Hpw Hother]. apply map_eq. intros k.
    destruct (decide (k = "password")) as [-> | Hk].
    + by rewrite Hpw, publicUser_no_password.
    + by rewrite Hother, publicUser_other.
Qed.

(** C9.  What [registerLocal] and [loginLocal] return is the stored record
    of the user, which holds the password, with the [password] property
    removed and every other property as stored; [getAllUsers] returns one
    such object for each stored user and nothing else. *)
Theorem returned_users_have_no_password s :
  (∀ (data : Registration) u, (registerLocal data s).1 = inr u →
     ∃ user,
       users_of (registerLocal data s).2 !! data.(username) = Some user
       ∧ user !! "password" = Some data.(password)
       ∧ u !! "password" = None
       ∧ ∀ k, k ≠ "password" → u !! k = user !! k)
  ∧ (∀ (data : Credentials) u, (loginLocal data s).1 = inr u →
       ∃ user,
         users_of s !! data.(login_username) = Some user
         ∧ user !! "password" = Some data.(login_password)
         ∧ u !! "password" = None
         ∧ ∀ k, k ≠ "password" → u !! k = user !! k)
  ∧ ∃ l, (getAllUsers s).1 = inr l
       ∧ length l = size (users_of s)
       ∧ ∀ u, u ∈ l ↔
           ∃ name user,
             users_of s !! name = Some user
             ∧ u !! "password" = None
             ∧ ∀ k, k ≠ "password" → u !! k = user !! k.
Proof.
  split_and!.
  - intros data u. rewrite registerLocal_run.
    destruct (get_prop _ _); simpl; try done.
    intros [= <-]. eexists. rewrite users_of_Stored.
    split; [apply lookup_insert_eq |]. split; [apply lookup_insert_eq |].
    by apply publicUser_iff.
  - intros data u. rewrite loginLocal_run.
    destruct (_ !! login_username data) as [user|]; [| done].
    case_decide as Hpw; simpl; [| done].
    intros [= <-]. exists user. split; [done |]. split; [done |].
    by apply publicUser_iff.
  - exists ((λ u, publicUser u) <$> (map_to_list (users_of s)).*2).
    split_and!.
    + by destruct s.
    + by rewrite !length_fmap, length_map_to_list.
    + intros u. rewrite list_elem_of_fmap. split.
      * intros (user & -> & Hin).
        apply list_elem_of_fmap in Hin as ([name user'] & -> & Hin).
        apply elem_of_map_to_list in Hin.
        exists name, user'. split; [done |]. by apply publicUser_iff.
      * intros (name & user & Hu & Hpub). exists user.
        split; [by apply publicUser_iff |].
        apply list_elem_of_fmap. exists (name, user). split; [done |].
        by apply elem_of_map_to_list.
Qed.

Lemma returned_users_have_no_password_witness :
  (∃ u user,
     (registerLocal Sample.eve Missing).1 = inr u
     ∧ users_of (registerLocal Sample.eve Missing).2 !! "eve" = Some user
     ∧ user !! "password" = Some "s3cret"
     ∧ u !! "password" = None
     ∧ ∀ k, k ≠ "password" → u !! k = user !! k)
  ∧ (∃ u user,
       (loginLocal {| login_username := "admin";
                      login_password := "admin123" |} Missing).1 = inr u
       ∧ users_of Missing !! "admin" = Some user
       ∧ user !! "password" = Some "admin123"
       ∧ u !! "password" = None
       ∧ ∀ k, k ≠ "password" → u !! k = user !! k).
Proof.
  pose proof (returned_users_have_no_password Missing) as (Hreg & Hlog & _).
  split.
  - destruct (Hreg Sample.eve _ eq_refl) as (user & H1 & H2 & H3 & H4).
    eexists _, user. split; [reflexivity |].
    split; [exact H1 |]. split; [exact H2 |]. split; [exact H3 | exact H4].
  - destruct (Hlog {| login_username := "admin";
                      login_password := "admin123" |} _ eq_refl)
      as (user & H1 & H2 & H3 & H4).
    eexists _, user. split; [reflexivity |].
    split; [exact H1 |]. split; [exact H2 |]. split; [exact H3 | exact H4].
Defined.

End UserClaims.

(** ** The day buckets of the views *)

Section ViewFacts.
Context `{DateFns} `{Casing}.

Implicit Types (c : obj) (certs certifications : list obj) (z : Z).

(** X17.  The table of the card: for a number of days that is not [NaN] the status
    is one of five, with the cut points 0, 30, 60 and 90. *)
Lemma getStatusInfo_table z :
  let st := Card.status (Card.getStatusInfo (Some z)) in
  (st = "expired" ↔ z < 0)%Z
  ∧ (st = "critical" ↔ 0 ≤ z ≤ 30)%Z
  ∧ (st = "warning" ↔ 31 ≤ z ≤ 60)%Z
  ∧ (st = "soon" ↔ 61 ≤ z ≤ 90)%Z
  ∧ (st = "active" ↔ 90 < z)%Z
  ∧ st ∈ ["expired"; "critical"; "warning"; "soon"; "active"].
Proof.
  unfold Card.getStatusInfo, num_lt, num_le; simpl.
  repeat case_bool_decide; simpl;
    (split_and!; [split; (done || lia) .. | set_solver]).
Qed.

Example getStatusInfo_30 :
  Card.status (Card.getStatusInfo (Some 30%Z)) = "critical".
Proof. reflexivity. Qed.

Example getStatusInfo_31 :
  Card.status (Card.getStatusInfo (Some 31%Z)) = "warning".
Proof. reflexivity. Qed.

Example getStatusInfo_29_label :
  Card.label (Card.getStatusInfo (Some 29%Z)) = "29 days left".
Proof. reflexivity. Qed.

Example getStatusInfo_5_days_ago :
  Card.label (Card.getStatusInfo (Some (-5)%Z)) = "Expired".
Proof. reflexivity. Qed.

(** An invalid date ends in the last branch. *)
Example getStatusInfo_NaN :
  Card.status (Card.getStatusInfo None) = "active".
Proof. reflexivity. Qed.

(** The four lists of the renewals page are the certifications whose card
    shows the corresponding status. *)
Lemma categorizedCerts_agrees certifications c :
  let cats := Renewals.categorizedCerts certifications in
  (c ∈ Renewals.expired cats ↔
     c ∈ certifications ∧ Card.cardStatus c = "expired")
  ∧ (c ∈ Renewals.critical cats ↔
     c ∈ certifications ∧ Card.cardStatus c = "critical")
  ∧ (c ∈ Renewals.warning cats ↔
     c ∈ certifications ∧ Card.cardStatus c = "warning")
  ∧ (c ∈ Renewals.upcoming cats ↔
     c ∈ certifications ∧ Card.cardStatus c = "soon").
Proof.
  unfold Renewals.categorizedCerts, Card.cardStatus, Card.getStatusInfo;
    simpl.
  rewrite !list_elem_of_filter.
  destruct (daysLeft c) as [z|]; simpl;
    [repeat case_bool_decide; simpl; try lia |];
    (split_and!; split; intros [? ?]; done).
Qed.

Lemma filter_throwing_elem {A} (p : A → option bool) (l r : list A) x :
  filter_throwing p l = Some r → x ∈ r → x ∈ l ∧ p x = Some true.
Proof.
  revert r. induction l as [|y l IH]; intros r; simpl.
  - intros [= <-] Hx. by apply not_elem_of_nil in Hx.
  - destruct (p y) as [b|] eqn:Hy; [| done].
    destruct (filter_throwing p l) as [r'|]; [| done].
    intros [= <-] Hx. destruct b.
    + apply elem_of_cons in Hx as [-> | Hx].
      * split; [by left | done].
      * destruct (IH r' eq_refl Hx). split; [by right | done].
    + destruct (IH r' eq_refl Hx). split; [by right | done].
Qed.

(** What the status part of the list filter lets through. *)
Lemma keeps_Some_true search statusFilter c :
  UserCertifications.keeps search statusFilter c = Some true →
  match statusFilter with
  | UserCertifications.active => ∃ z, daysLeft c = Some z ∧ (90 < z)%Z
  | UserCertifications.expiring =>
      ∃ z, daysLeft c = Some z ∧ (0 < z ≤ 90)%Z
  | UserCertifications.expired => ∃ z, daysLeft c = Some z ∧ (z < 0)%Z
  | UserCertifications.all => True
  end.
Proof.
  unfold UserCertifications.keeps.
  destruct (UserCertifications.matchesSearch search c) as [[|]|];
    [| done | done].
  destruct statusFilter; [done | ..];
    (destruct (daysLeft c) as [z|]; simpl; [| done]);
    repeat case_bool_decide; simpl; try done;
    intros _; exists z; (split; [done | lia]).
Qed.

End ViewFacts.

Section ViewClaims.
Context `{DateFns} `{Casing}.

Implicit Types (c : obj) (certs : list obj).

(** C1 (fails on the code).  A certification with 0 days left is "critical"
    on its card and in the critical list of the renewals page, yet adding it
    to the list of the admin page of expiring certifications raises none of
    that page's four counters: its first bucket starts above 0. *)
Theorem day_zero_is_critical_but_not_counted c certs :
  daysLeft c = Some 0%Z →
  Card.cardStatus c = "critical"
  ∧ c ∈ Renewals.critical (Renewals.categorizedCerts (c :: certs))
  ∧ AdminExpiring.stats (c :: certs) = AdminExpiring.stats certs.
Proof.
  intros Hd. split_and!.
  - unfold Card.cardStatus. by rewrite Hd.
  - destruct (categorizedCerts_agrees (c :: certs) c) as (_ & Hcrit & _).
    apply Hcrit. split; [by left |].
    unfold Card.cardStatus. by rewrite Hd.
  - unfold AdminExpiring.stats.
    by rewrite !filter_cons_False by (rewrite Hd; simpl; auto).
Qed.

(** C2 (fails on the code).  A certification with 0 days left passes none of
    the status filters "active", "expiring" and "expired" of the list page,
    whatever the search text, and adding it to the list of the dashboard
    raises only [total]: the "expiring" bucket is 1 to 90 days. *)
Theorem day_zero_in_no_filter_bucket c certs search :
  daysLeft c = Some 0%Z →
  (∀ certifications statusFilter l,
     statusFilter ≠ UserCertifications.all →
     UserCertifications.filteredCertifications search statusFilter
       certifications = Some l →
     c ∉ l)
  ∧ Dashboard.expiringSoon (Dashboard.stats (c :: certs))
    = Dashboard.expiringSoon (Dashboard.stats certs)
  ∧ Dashboard.active (Dashboard.stats (c :: certs))
    = Dashboard.active (Dashboard.stats certs)
  ∧ Dashboard.expired (Dashboard.stats (c :: certs))
    = Dashboard.expired (Dashboard.stats certs)
  ∧ Dashboard.total (Dashboard.stats (c :: certs))
    = S (Dashboard.total (Dashboard.stats certs)).
Proof.
  intros Hd. split_and!.
  - intros certifications statusFilter l Hall Hl Hin.
    destruct (filter_throwing_elem _ _ _ _ Hl Hin) as [_ Hk].
    apply keeps_Some_true in Hk.
    destruct statusFilter; [done | ..];
      destruct Hk as (z & Hz & ?); rewrite Hd in Hz;
      injection Hz as <-; lia.
  - unfold Dashboard.stats; simpl.
    by rewrite filter_cons_False by (rewrite Hd; simpl; auto).
  - unfold Dashboard.stats; simpl.
    by rewrite filter_cons_False by (rewrite Hd; simpl; auto).
  - unfold Dashboard.stats; simpl.
    by rewrite filter_cons_False by (rewrite Hd; simpl; auto).
  - done.
Qed.

(** The filter does let through what has 1 to 90 days left and matches the
    search text. *)
Lemma keeps_expiring search c z :
  UserCertifications.matchesSearch search c = Some true →
  daysLeft c = Some z →
  UserCertifications.keeps search UserCertifications.expiring c
  = Some (bool_decide (0 < z ≤ 90)%Z).
Proof.
  intros Hm Hd. unfold UserCertifications.keeps. rewrite Hm, Hd. simpl.
  f_equal. repeat case_bool_decide; simpl; (done || lia).
Qed.

End ViewClaims.

Section ViewWitnesses.

(** [Sample.aws] expires on 2026-11-01; the views are evaluated at noon of
    that day. *)
Lemma day_zero_is_critical_but_not_counted_witness :
  let cal := UTC.at_instant Sample.noon_2026_11_01 in
  @daysLeft cal Sample.aws = Some 0%Z
  ∧ @Card.cardStatus cal Sample.aws = "critical"
  ∧ Sample.aws ∈ Renewals.critical
                   (@Renewals.categorizedCerts cal [Sample.aws])
  ∧ @AdminExpiring.stats cal [Sample.aws] = @AdminExpiring.stats cal [].
Proof.
  intros cal.
  assert (@daysLeft cal Sample.aws = Some 0%Z) as Hd by (vm_compute; reflexivity).
  split; [exact Hd |].
  exact (@day_zero_is_critical_but_not_counted cal Sample.aws [] Hd).
Defined.

Example admin_expiring_stats_day_zero :
  @AdminExpiring.stats (UTC.at_instant Sample.noon_2026_11_01) [Sample.aws]
  = {| AdminExpiring.within30 := 0; AdminExpiring.within60 := 0;
       AdminExpiring.within90 := 0; AdminExpiring.expired := 0 |}.
Proof. by vm_compute. Qed.

Lemma day_zero_in_no_filter_bucket_witness :
  let cal := UTC.at_instant Sample.noon_2026_11_01 in
  @daysLeft cal Sample.aws = Some 0%Z
  ∧ (∀ certifications statusFilter l,
       statusFilter ≠ UserCertifications.all →
       @UserCertifications.filteredCertifications cal ascii_casing ""
         statusFilter certifications = Some l →
       Sample.aws ∉ l)
  ∧ Dashboard.expiringSoon (@Dashboard.stats cal [Sample.aws])
    = Dashboard.expiringSoon (@Dashboard.stats cal [])
  ∧ Dashboard.active (@Dashboard.stats cal [Sample.aws])
    = Dashboard.active (@Dashboard.stats cal [])
  ∧ Dashboard.expired (@Dashboard.stats cal [Sample.aws])
    = Dashboard.expired (@Dashboard.stats cal [])
  ∧ Dashboard.total (@Dashboard.stats cal [Sample.aws])
    = S (Dashboard.total (@Dashboard.stats cal [])).
Proof.
  intros cal.
  assert (@daysLeft cal Sample.aws = Some 0%Z) as Hd by (vm_compute; reflexivity).
  split; [exact Hd |].
  exact (@day_zero_in_no_filter_bucket cal ascii_casing Sample.aws [] ""
           Hd).
Defined.

Example filteredCertifications_day_zero :
  let cal := UTC.at_instant Sample.noon_2026_11_01 in
  @UserCertifications.filteredCertifications cal ascii_casing ""
     UserCertifications.expiring [Sample.aws] = Some []
  ∧ @UserCertifications.filteredCertifications cal ascii_casing ""
     UserCertifications.active [Sample.aws] = Some []
  ∧ @UserCertifications.filteredCertifications cal ascii_casing ""
     UserCertifications.expired [Sample.aws] = Some []
  ∧ @UserCertifications.filteredCertifications cal ascii_casing "aws"
     UserCertifications.all [Sample.aws] = Some [Sample.aws]
  ∧ @Dashboard.stats cal [Sample.aws]
    = {| Dashboard.total := 1; Dashboard.active := 0;
         Dashboard.expiringSoon := 0; Dashboard.expired := 0 |}.
Proof. intros cal. split_and!; reflexivity. Qed.

End ViewWitnesses.

(** * Further properties of the code *)

(** ** The certification repository: how the operations compose *)

Section CertificationMore.
Import LocalData.

Implicit Types (s : store) (c old : obj) (data : partial) (id u : string).

Lemma createCertification_run uuid today data s :
  ∃ c, createCertification uuid today data s
       = (inr c, Stored (certs_of s ++ [c])%list)
     ∧ c !! "id" = Some uuid
     ∧ c !! "userId" = Some (or_else (pget data "userId") "").
Proof.
  destruct (createCertification_stored uuid today data s)
    as (c & Hrun & Hid & Hu & _).
  eauto.
Qed.

Lemma certs_of_Stored (l : list obj) : certs_of (Stored l) = l.
Proof. done. Qed.



(** X2.  The created record has exactly seven properties.  Its id is the
    generated one even when the partial carries an [id]; an empty string in
    the partial is replaced like a missing value; every other key of the
    partial is dropped. *)
Theorem createCertification_shape uuid today data s :
  ∃ c, (createCertification uuid today data s).1 = inr c
     ∧ dom c = ({["id"; "userId"; "name"; "issuingOrganization";
                  "credentialId"; "issueDate"; "expirationDate"]}
                : gset string)
     ∧ c !! "id" = Some uuid
     ∧ (∀ k, k ∈ ["userId"; "name"; "issuingOrganization"; "credentialId"] →
          c !! k = Some (match pget data k with
                         | Some v => v
                         | None => ""
                         end))
     ∧ (∀ k, k ∈ ["issueDate"; "expirationDate"] →
          c !! k = Some (match pget data k with
                         | Some v => if decide (v = "") then today else v
                         | None => today
                         end)).
Proof.
  unfold createCertification, bind, saveCerts, ret.
  set (c := <["id" := uuid]> _).
  exists c. split; [by destruct s |].
  split.
  { subst c. rewrite !dom_insert_L, dom_empty_L. set_solver. }
  split; [apply lookup_insert_eq |].
  split.
  - intros k Hk. apply list_elem_of_In in Hk. subst c.
    destruct Hk as [<-|[<-|[<-|[<-|[]]]]];
      repeat (rewrite lookup_insert_ne by done); rewrite lookup_insert_eq;
      unfold or_else; (destruct (pget data _); [case_decide; by subst | done]).
  - intros k Hk. apply list_elem_of_In in Hk. subst c.
    destruct Hk as [<-|[<-|[]]];
      repeat (rewrite lookup_insert_ne by done); rewrite lookup_insert_eq;
      unfold or_else; by destruct (pget data _).
Qed.

(** X3.  A certification created for a non-empty user id is, right afterwards,
    the last of that user's certifications. *)
Theorem created_is_listed_for_owner uuid today data s u :
  pget data "userId" = Some u → u ≠ "" →
  let r := createCertification uuid today data s in
  ∃ c before,
    r.1 = inr c
    ∧ (getCertificationsByUser (Some u) s).1 = inr before
    ∧ (getCertificationsByUser (Some u) r.2).1 = inr (before ++ [c])%list.
Proof.
  intros Hu Hne r. subst r.
  destruct (createCertification_run uuid today data s) as (c & -> & _ & Hc).
  exists c, (filter (λ c : obj, c !! "userId" = Some u) (certs_of s)).
  rewrite Hu in Hc. unfold or_else in Hc. rewrite decide_False in Hc by done.
  simpl. unfold getCertificationsByUser, bind, falsy.
  rewrite bool_decide_eq_false_2 by done.
  split_and!; [done | by destruct s |]. simpl.
  by rewrite filter_app, filter_cons_True, filter_nil.
Qed.

(** X4.  A certification created without a user id (or with the empty one) gets
    the user id [""] and is returned for no user at all. *)
Theorem created_without_owner_is_unlisted uuid today data s :
  pget data "userId" = None ∨ pget data "userId" = Some "" →
  let r := createCertification uuid today data s in
  ∃ c, r.1 = inr c
     ∧ c ∈ certs_of r.2
     ∧ c !! "userId" = Some ""
     ∧ ∀ userId l, (getCertificationsByUser userId r.2).1 = inr l → c ∉ l.
Proof.
  intros Hu r. subst r.
  destruct (createCertification_run uuid today data s) as (c & -> & _ & Hc).
  assert (c !! "userId" = Some "") as Hc'
    by (rewrite Hc; by destruct Hu as [-> | ->]).
  exists c. simpl. rewrite certs_of_Stored. split_and!; [done | | done |].
  - apply elem_of_app. right. by left.
  - intros userId l. unfold getCertificationsByUser, bind; simpl.
    destruct (falsy userId) eqn:Hf; simpl; intros [= <-].
    + apply not_elem_of_nil.
    + intros [Hcu _]%list_elem_of_filter. rewrite Hc' in Hcu. subst userId.
      unfold falsy in Hf. by rewrite bool_decide_eq_true_2 in Hf.
Qed.

(** X5.  Deleting the id of a record just created with an unused id gives back
    the list there was before. *)
Theorem delete_after_create_restores uuid today data s :
  (∀ c, c ∈ certs_of s → c !! "id" ≠ Some uuid) →
  certs_of (deleteCertification uuid
              (createCertification uuid today data s).2).2
  = certs_of s.
Proof.
  intros Hfresh.
  destruct (createCertification_run uuid today data s) as (c & -> & Hid & _).
  unfold deleteCertification, bind; simpl. rewrite certs_of_Stored.
  rewrite filter_app, filter_cons_False, filter_nil, app_nil_r by naive_solver.
  by apply filter_all.
Qed.

(** X6.  After a deletion, an update of the deleted id throws [NotFound]. *)
Theorem update_after_delete_not_found s id data :
  (updateCertification id data (deleteCertification id s).2).1
  = inl NotFound.
Proof.
  rewrite updateCertification_absent; [done |].
  apply list_find_None, Forall_forall. intros c Hc.
  assert (certs_of (deleteCertification id s).2
          = filter (λ c : obj, c !! "id" ≠ Some id) (certs_of s)) as Heq
    by by destruct s.
  rewrite Heq in Hc. by apply list_elem_of_filter in Hc as [? _].
Qed.

(** X7.  An update never adds or removes a record, whatever the partial and
    whether or not it throws; it changes at most the first record with the
    id. *)
Theorem updateCertification_frame s id data :
  let r := updateCertification id data s in
  length (certs_of r.2) = length (certs_of s)
  ∧ (∀ j c, certs_of s !! j = Some c → c !! "id" ≠ Some id →
       certs_of r.2 !! j = Some c)
  ∧ (∀ i j c c', i < j →
       certs_of s !! i = Some c → c !! "id" = Some id →
       certs_of s !! j = Some c' → certs_of r.2 !! j = Some c').
Proof.
  intros r. subst r.
  destruct (list_find (λ c : obj, c !! "id" = Some id) (certs_of s))
    as [[idx old]|] eqn:Hf.
  - rewrite (updateCertification_found _ _ _ _ _ Hf). simpl.
    rewrite certs_of_Stored, length_insert.
    apply list_find_Some in Hf as (Hl & Hid & Hbefore).
    split_and!; [done | |].
    + intros j c Hj Hne. rewrite list_lookup_insert_ne; [done |].
      intros ->. congruence.
    + intros i j c c' Hlt Hi Hci Hj. rewrite list_lookup_insert_ne; [done |].
      intros ->. destruct (decide (i < j)) as [Hij | ?]; [| lia].
      by destruct (Hbefore i c Hi Hij).
  - rewrite (updateCertification_absent _ _ _ Hf). simpl.
    rewrite certs_of_loaded. by split_and!.
Qed.

(** X8.  Two updates of the same id in a row, the first of which leaves [id]
    alone, amount to one update with the two partials combined, the later
    one taking precedence. *)
Theorem update_twice_is_update_of_union s id (d1 d2 : partial) :
  d1 !! "id" = None →
  (∃ c, c ∈ certs_of s ∧ c !! "id" = Some id) →
  updateCertification id d2 (updateCertification id d1 s).2
  = updateCertification id (d2 ∪ d1) s.
Proof.
  intros Hd1 Hex. destruct (first_with_id s id Hex) as (idx & old & Hf).
  pose proof Hf as (Hl & Hid & _)%list_find_Some.
  rewrite (updateCertification_found _ _ d1 _ _ Hf). simpl.
  assert (spread old d1 !! "id" = Some id) as Hid1
    by by rewrite lookup_spread, Hd1.
  rewrite (updateCertification_found (Stored _) id d2 idx (spread old d1)),
          (updateCertification_found _ _ (d2 ∪ d1) _ _ Hf).
  - rewrite certs_of_Stored, list_insert_insert_eq.
    assert (spread (spread old d1) d2 = spread old (d2 ∪ d1)) as ->; [| done].
    apply map_eq. intros k. rewrite !lookup_spread, lookup_union.
    by destruct (d2 !! k), (d1 !! k).
  - rewrite certs_of_Stored. by eapply list_find_insert_same.
Qed.

(** X9.  Deletions commute, and each removes every record with its id. *)
Theorem deleteCertification_commutes s id1 id2 :
  (deleteCertification id2 (deleteCertification id1 s).2).2
  = (deleteCertification id1 (deleteCertification id2 s).2).2
  ∧ certs_of (deleteCertification id2 (deleteCertification id1 s).2).2
    = filter (λ c : obj, c !! "id" ≠ Some id1 ∧ c !! "id" ≠ Some id2)
        (certs_of s).
Proof.
  assert (∀ a b,
    (deleteCertification b (deleteCertification a s).2).2
    = Stored (filter (λ c : obj, c !! "id" ≠ Some a ∧ c !! "id" ≠ Some b)
                (certs_of s))) as Hrun.
  { intros a b. unfold deleteCertification, bind.
    destruct s; simpl; rewrite ?certs_of_Stored; try done.
    f_equal. rewrite list_filter_filter. apply list_filter_iff. tauto. }
  rewrite !Hrun, certs_of_Stored. split; [| done].
  f_equal. apply list_filter_iff. tauto.
Qed.

(** X10.  Storage that is absent or unreadable reads as the empty list: nothing
    is listed and every update throws [NotFound].  Reading leaves
    unreadable text in place, and the first creation replaces it by a list
    of one record. *)
Theorem unreadable_storage_is_empty s :
  s = Missing ∨ s = Corrupt →
  (getAllCertifications s).1 = inr []
  ∧ (∀ userId, (getCertificationsByUser userId s).1 = inr [])
  ∧ (∀ id data, (updateCertification id data s).1 = inl NotFound)
  ∧ (getAllCertifications Corrupt).2 = Corrupt
  ∧ (getAllCertifications Missing).2 = Stored []
  ∧ ∀ uuid today data,
      ∃ c, createCertification uuid today data s = (inr c, Stored [c]).
Proof.
  intros Hs.
  assert (certs_of s = []) as Hempty by by destruct Hs as [-> | ->].
  split_and!; try done.
  - by destruct Hs as [-> | ->].
  - intros userId. unfold getCertificationsByUser, bind.
    destruct Hs as [-> | ->]; simpl; by destruct (falsy userId).
  - intros id data. rewrite updateCertification_absent; [done |].
    by rewrite Hempty.
  - intros uuid today data.
    destruct (createCertification_run uuid today data s) as (c & Hc & _).
    exists c. by rewrite Hc, Hempty.
Qed.

End CertificationMore.

Section CertificationMoreWitnesses.
Import LocalData.

Lemma sample_id_unused :
  ∀ c : obj, c ∈ certs_of Sample.certs → c !! "id" ≠ Some "7b0e".
Proof.
  intros c Hc. apply list_elem_of_In in Hc.
  destruct Hc as [<-|[<-|[]]]; vm_compute; discriminate.
Defined.


Lemma createCertification_shape_witness :
  ∃ c, (createCertification "7b0e" "2026-11-01"
          (<["id" := Some "mine"]> (<["issueDate" := Some ""]>
             (<["color" := Some "red"]> Sample.new_cert)))
          Sample.certs).1 = inr c
     ∧ c !! "id" = Some "7b0e"
     ∧ c !! "issueDate" = Some "2026-11-01"
     ∧ c !! "credentialId" = Some ""
     ∧ c !! "color" = None.
Proof.
  destruct (createCertification_shape "7b0e" "2026-11-01"
              (<["id" := Some "mine"]> (<["issueDate" := Some ""]>
                 (<["color" := Some "red"]> Sample.new_cert)))
              Sample.certs) as (c & Hc & Hdom & Hid & Hstr & Hdate).
  exists c. split_and!; [exact Hc | exact Hid | | |].
  - rewrite (Hdate "issueDate") by (left). reflexivity.
  - rewrite (Hstr "credentialId") by (do 3 right; left). reflexivity.
  - apply not_elem_of_dom. rewrite Hdom. vm_compute. intros H. inversion H.
Defined.

Lemma created_is_listed_for_owner_witness :
  let r := createCertification "7b0e" "2026-11-01" Sample.new_cert
             Sample.certs in
  pget Sample.new_cert "userId" = Some "2" ∧ "2" ≠ ""
  ∧ ∃ c before,
      r.1 = inr c
      ∧ (getCertificationsByUser (Some "2") Sample.certs).1 = inr before
      ∧ (getCertificationsByUser (Some "2") r.2).1
        = inr (before ++ [c])%list.
Proof.
  intros r.
  assert (pget Sample.new_cert "userId" = Some "2") as H1 by reflexivity.
  assert ("2" ≠ "") as H2 by discriminate.
  split; [exact H1 |]. split; [exact H2 |].
  exact (created_is_listed_for_owner "7b0e" "2026-11-01" Sample.new_cert
           Sample.certs "2" H1 H2).
Defined.

Lemma created_without_owner_is_unlisted_witness :
  let data : partial := {[ "name" := Some "CKA" ]} in
  let r := createCertification "7b0e" "2026-11-01" data Sample.certs in
  (pget data "userId" = None ∨ pget data "userId" = Some "")
  ∧ ∃ c, r.1 = inr c
       ∧ c ∈ certs_of r.2
       ∧ c !! "userId" = Some ""
       ∧ ∀ userId l, (getCertificationsByUser userId r.2).1 = inr l → c ∉ l.
Proof.
  intros data r.
  assert (pget data "userId" = None ∨ pget data "userId" = Some "") as H
    by (left; reflexivity).
  split; [exact H |].
  exact (created_without_owner_is_unlisted "7b0e" "2026-11-01" data
           Sample.certs H).
Defined.

Lemma delete_after_create_restores_witness :
  (∀ c : obj, c ∈ certs_of Sample.certs → c !! "id" ≠ Some "7b0e")
  ∧ certs_of (deleteCertification "7b0e"
                (createCertification "7b0e" "2026-11-01" Sample.new_cert
                   Sample.certs).2).2
    = certs_of Sample.certs.
Proof.
  split; [exact sample_id_unused |].
  exact (delete_after_create_restores "7b0e" "2026-11-01" Sample.new_cert
           Sample.certs sample_id_unused).
Defined.

Lemma updateCertification_frame_witness :
  let r := updateCertification "c-1" {[ "notes" := None ]} Sample.certs in
  certs_of Sample.certs !! 1 = Some Sample.pmp
  ∧ Sample.pmp !! "id" ≠ Some "c-1"
  ∧ length (certs_of r.2) = length (certs_of Sample.certs)
  ∧ certs_of r.2 !! 1 = Some Sample.pmp.
Proof.
  intros r.
  destruct (updateCertification_frame Sample.certs "c-1"
              {[ "notes" := None ]}) as (Hlen & Hother & _).
  assert (certs_of Sample.certs !! 1 = Some Sample.pmp) as H1 by reflexivity.
  assert (Sample.pmp !! "id" ≠ Some "c-1") as H2
    by (vm_compute; discriminate).
  split; [exact H1 |]. split; [exact H2 |]. split; [exact Hlen |].
  exact (Hother 1 Sample.pmp H1 H2).
Defined.

Lemma update_twice_is_update_of_union_witness :
  let d1 : partial := {[ "notes" := Some "first" ]} in
  let d2 : partial := {[ "expirationDate" := Some "2028-11-01" ]} in
  d1 !! "id" = None
  ∧ (∃ c : obj, c ∈ certs_of Sample.certs ∧ c !! "id" = Some "c-1")
  ∧ updateCertification "c-1" d2
      (updateCertification "c-1" d1 Sample.certs).2
    = updateCertification "c-1" (d2 ∪ d1) Sample.certs.
Proof.
  intros d1 d2.
  assert (d1 !! "id" = None) as H1 by reflexivity.
  assert (∃ c : obj, c ∈ certs_of Sample.certs ∧ c !! "id" = Some "c-1")
    as H2 by (exists Sample.aws; split; [left | reflexivity]).
  split; [exact H1 |]. split; [exact H2 |].
  exact (update_twice_is_update_of_union Sample.certs "c-1" d1 d2 H1 H2).
Defined.

Lemma unreadable_storage_is_empty_witness :
  ((Corrupt : store) = Missing ∨ (Corrupt : store) = Corrupt)
  ∧ (getAllCertifications (Corrupt : store)).1 = inr []
  ∧ (∀ id data, (updateCertification id data Corrupt).1 = inl NotFound)
  ∧ ∃ c, createCertification "7b0e" "2026-11-01" Sample.new_cert Corrupt
         = (inr c, Stored [c]).
Proof.
  assert ((Corrupt : store) = Missing ∨ (Corrupt : store) = Corrupt) as H
    by (right; reflexivity).
  destruct (unreadable_storage_is_empty Corrupt H)
    as (Hall & _ & Hupd & _ & _ & Hcreate).
  split; [exact H |]. split; [exact Hall |]. split; [exact Hupd |].
  exact (Hcreate "7b0e" "2026-11-01" Sample.new_cert).
Defined.

End CertificationMoreWitnesses.

(** ** The user repository: registration, login and the stored ids *)

Section UserMore.
Import LocalAuth.

Implicit Types (s : store) (users : gmap string obj) (user u : obj).

Lemma get_prop_Undefined {A} (o : gmap string A) k :
  get_prop o k = Undefined ↔ o !! k = None ∧ k ∉ object_prototype_keys.
Proof.
  unfold get_prop. destruct (o !! k) as [a|].
  - split; [done | by intros [? _]].
  - case_bool_decide; (split; [try done | by intros [_ ?]]).
Qed.

Lemma mkUser_lookup id username fullName email role :
  let u := mkUser id username fullName email role in
  u !! "id" = Some id ∧ u !! "username" = Some username
  ∧ u !! "fullName" = Some fullName ∧ u !! "email" = Some email
  ∧ u !! "role" = Some role ∧ u !! "password" = None.
Proof. unfold mkUser. by split_and!; simplify_map_eq. Qed.

(** X11.  [registerLocal] succeeds exactly when the user name is neither a stored
    key nor the name of a member of [Object.prototype], and throws nothing
    but [Conflict].  It never changes or removes a stored user.  The user
    it returns has the role "user" and the number of users plus one as id,
    and is stored under the user name with the password added. *)
Theorem registerLocal_succeeds_iff s (data : Registration) :
  let r := registerLocal data s in
  ((∃ u, r.1 = inr u) ↔
     users_of s !! data.(username) = None
     ∧ data.(username) ∉ object_prototype_keys)
  ∧ (∀ e, r.1 = inl e → e = Conflict)
  ∧ (∀ name user, users_of s !! name = Some user →
       users_of r.2 !! name = Some user)
  ∧ (∀ u, r.1 = inr u →
       u !! "id" = Some (pretty (size (users_of s) + 1))
       ∧ u !! "username" = Some data.(username)
       ∧ u !! "fullName" = Some data.(fullName)
       ∧ u !! "email" = Some data.(email)
       ∧ u !! "role" = Some "user"
       ∧ users_of r.2
         = <[data.(username) := <["password" := data.(password)]> u]>
             (users_of s)).
Proof.
  intros r. subst r. rewrite registerLocal_run.
  destruct (get_prop (users_of s) (username data)) as [user| |] eqn:Hp; simpl.
  - rewrite users_of_loaded. split; [| split; [| split]].
    + split; [by intros [? ?] |]. intros Hu%get_prop_Undefined. congruence.
    + by intros e [= <-].
    + done.
    + done.
  - rewrite users_of_loaded. split; [| split; [| split]].
    + split; [by intros [? ?] |]. intros Hu%get_prop_Undefined. congruence.
    + by intros e [= <-].
    + done.
    + done.
  - pose proof Hp as [Hnone Hproto]%get_prop_Undefined.
    rewrite users_of_Stored. split; [| split; [| split]].
    + split; [done | eauto].
    + done.
    + intros name user Hn. rewrite lookup_insert_ne; [done |]. congruence.
    + intros u [= <-].
      destruct (mkUser_lookup (pretty (size (users_of s) + 1))
                  (username data) (fullName data) (email data) "user")
        as (H1 & H2 & H3 & H4 & H5 & H6).
      rewrite !publicUser_other by done.
      rewrite !lookup_insert_ne by done.
      split_and!; try done.
      all: unfold publicUser; by rewrite insert_delete_eq, insert_insert_eq.
Qed.

(** X12.  Right after a successful registration, the same user name and password
    log in and get the user that the registration returned; any other
    password is refused. *)
Theorem login_after_register s (data : Registration) u :
  (registerLocal data s).1 = inr u →
  let s' := (registerLocal data s).2 in
  loginLocal {| login_username := data.(username);
                login_password := data.(password) |} s' = (inr u, s')
  ∧ ∀ pw, pw ≠ data.(password) →
      (loginLocal {| login_username := data.(username);
                     login_password := pw |} s').1 = inl Unauthorized.
Proof.
  rewrite registerLocal_run.
  destruct (get_prop (users_of s) (username data)) eqn:Hp; simpl; try done.
  intros [= <-]. split.
  - rewrite loginLocal_run, users_of_Stored; simpl.
    rewrite lookup_insert_eq, lookup_insert_eq. by rewrite decide_True.
  - intros pw Hpw. rewrite loginLocal_run, users_of_Stored; simpl.
    rewrite lookup_insert_eq, lookup_insert_eq.
    rewrite decide_False; [done | congruence].
Qed.

Lemma registerLocal_keeps_ids s (data : Registration) :
  ids_numbered (users_of s) → ids_unique (users_of s) →
  ids_numbered (users_of (registerLocal data s).2)
  ∧ ids_unique (users_of (registerLocal data s).2).
Proof.
  intros Hnum Huniq. rewrite registerLocal_run.
  destruct (get_prop (users_of s) (username data)) as [user| |] eqn:Hp;
    simpl; rewrite ?users_of_loaded; try done.
  pose proof Hp as [Hnone _]%get_prop_Undefined.
  rewrite users_of_Stored.
  set (new := <["password" := password data]> _).
  assert (new !! "id" = Some (pretty (size (users_of s) + 1))) as Hnew
    by (subst new; by simplify_map_eq).
  split.
  - intros name u Hu. rewrite map_size_insert_None by done.
    apply lookup_insert_Some in Hu as [[<- <-] | [Hne Hu]].
    + exists (size (users_of s) + 1). split; [lia | done].
    + destruct (Hnum name u Hu) as (k & Hk & Hid).
      exists k. split; [lia | done].
  - intros n1 n2 u1 u2 H1 H2 Hid.
    apply lookup_insert_Some in H1 as [[<- <-] | [Hne1 H1]];
      apply lookup_insert_Some in H2 as [[<- <-] | [Hne2 H2]]; try done.
    + destruct (Hnum n2 u2 H2) as (k & Hk & Hid2).
      rewrite Hnew, Hid2 in Hid. injection Hid as Hid.
      apply (inj pretty) in Hid. lia.
    + destruct (Hnum n1 u1 H1) as (k & Hk & Hid1).
      rewrite Hnew, Hid1 in Hid. injection Hid as Hid.
      apply (inj pretty) in Hid. lia.
    + by eapply Huniq.
Qed.

Lemma demo_ids : ids_numbered demo ∧ ids_unique demo.
Proof.
  assert (∀ name u, demo !! name = Some u →
            (name = "admin" ∧ u !! "id" = Some "1")
            ∨ (name = "john" ∧ u !! "id" = Some "2")) as Hdemo.
  { intros name u. unfold demo.
    rewrite lookup_insert_Some, lookup_insert_Some, lookup_empty.
    intros [[<- <-] | [_ [[<- <-] | [_ ?]]]]; [left | right | done];
      (split; [done | reflexivity]). }
  split.
  - intros name u Hu. destruct (Hdemo name u Hu) as [[_ Hid] | [_ Hid]].
    + exists 1. split; [vm_compute; lia | done].
    + exists 2. split; [vm_compute; lia | done].
  - intros n1 n2 u1 u2 H1 H2 Hid.
    destruct (Hdemo n1 u1 H1) as [[-> Hi1] | [-> Hi1]],
             (Hdemo n2 u2 H2) as [[-> Hi2] | [-> Hi2]]; try done;
      rewrite Hi1, Hi2 in Hid; discriminate.
Qed.

(** X13.  If the stored users are numbered "1", ..., "n" without repetition, they
    still are after any sequence of registrations, whichever of them
    succeed. *)
Theorem register_all_keeps_ids (regs : list Registration) s :
  ids_numbered (users_of s) → ids_unique (users_of s) →
  ids_numbered (users_of (register_all regs s))
  ∧ ids_unique (users_of (register_all regs s)).
Proof.
  revert s. induction regs as [|data regs IH]; intros s Hnum Huniq; [done |].
  simpl. destruct (registerLocal_keeps_ids s data Hnum Huniq).
  by apply IH.
Qed.

(** [loginLocal] and [getAllUsers] never change which users are stored,
    and neither does a [registerLocal] that throws. *)
Theorem reads_keep_users s :
  (∀ data, users_of (loginLocal data s).2 = users_of s)
  ∧ users_of (getAllUsers s).2 = users_of s
  ∧ (∀ data e, (registerLocal data s).1 = inl e →
       users_of (registerLocal data s).2 = users_of s).
Proof.
  split_and!.
  - intros data. rewrite loginLocal_run.
    destruct (_ !! login_username data); [case_decide |];
      apply users_of_loaded.
  - by destruct s.
  - intros data e. rewrite registerLocal_run.
    destruct (get_prop _ _); simpl; try done; intros _;
      apply users_of_loaded.
Qed.

Lemma getAllUsers_lists s :
  ∃ l, (getAllUsers s).1 = inr l
     ∧ length l = size (users_of s)
     ∧ ∀ u, u ∈ l ↔ ∃ name user, users_of s !! name = Some user
                                ∧ u = publicUser user.
Proof.
  exists ((λ u, publicUser u) <$> (map_to_list (users_of s)).*2).
  split_and!.
  - by destruct s.
  - by rewrite !length_fmap, length_map_to_list.
  - intros u. rewrite list_elem_of_fmap. split.
    + intros (user & -> & Hin).
      apply list_elem_of_fmap in Hin as ([name user'] & -> & Hin).
      apply elem_of_map_to_list in Hin. eauto.
    + intros (name & user & Hu & ->). exists user. split; [done |].
      apply list_elem_of_fmap. exists (name, user). split; [done |].
      by apply elem_of_map_to_list.
Qed.

(** X14.  After a successful registration [getAllUsers] lists one user more, and
    the returned user is among them. *)
Theorem getAllUsers_after_register s (data : Registration) u :
  (registerLocal data s).1 = inr u →
  ∃ before after,
    (getAllUsers s).1 = inr before
    ∧ (getAllUsers (registerLocal data s).2).1 = inr after
    ∧ length after = S (length before)
    ∧ u ∈ after.
Proof.
  intros Hreg.
  destruct (getAllUsers_lists s) as (before & Hb & Hlb & _).
  destruct (getAllUsers_lists (registerLocal data s).2)
    as (after & Ha & Hla & Hin).
  exists before, after. split_and!; [done | done | |].
  - rewrite Hla, Hlb. revert Hreg. rewrite registerLocal_run.
    destruct (get_prop (users_of s) (username data)) eqn:Hp; simpl;
      try done.
    intros _. apply get_prop_Undefined in Hp as [Hnone _].
    by rewrite users_of_Stored, map_size_insert_None.
  - apply Hin. revert Hreg. rewrite registerLocal_run.
    destruct (get_prop (users_of s) (username data)) eqn:Hp; simpl;
      try done.
    intros [= <-]. eexists _, _. rewrite users_of_Stored.
    split; [apply lookup_insert_eq | done].
Qed.

(** Absent user storage is seeded with the two demo accounts, whose
    passwords then log in; unreadable user storage holds no user, so every
    login is refused and nothing is listed, and it stays unreadable until a
    registration overwrites it. *)
Theorem user_storage_edges :
  users_of Missing = demo
  ∧ (∀ data, (loginLocal data Missing).2 = Stored demo)
  ∧ (∃ a, (loginLocal {| login_username := "admin";
                         login_password := "admin123" |} Missing).1 = inr a
        ∧ a !! "role" = Some "admin")
  ∧ (∃ j, (loginLocal {| login_username := "john";
                         login_password := "user123" |} Missing).1 = inr j
        ∧ j !! "role" = Some "user")
  ∧ (∀ data, loginLocal data Corrupt = (inl Unauthorized, Corrupt))
  ∧ getAllUsers Corrupt = (inr [], Corrupt)
  ∧ (∀ data u, (registerLocal data Corrupt).1 = inr u →
       users_of (registerLocal data Corrupt).2
       = {[ data.(username) := <["password" := data.(password)]> u ]}).
Proof.
  split; [reflexivity |]. split.
  { intros data. rewrite loginLocal_run.
    by destruct (_ !! login_username data); [case_decide |]. }
  split; [eexists; split; reflexivity |].
  split; [eexists; split; reflexivity |].
  split.
  { intros data. rewrite loginLocal_run. unfold users_of; simpl.
    by rewrite lookup_empty. }
  split; [reflexivity |].
  intros data u. rewrite registerLocal_run.
  destruct (get_prop _ _); simpl; try done.
  intros [= <-]. rewrite users_of_Stored. unfold users_of; simpl.
  rewrite insert_empty. unfold publicUser.
  by rewrite insert_delete_eq, insert_insert_eq.
Qed.

End UserMore.

Section UserMoreWitnesses.
Import LocalAuth.

Lemma registerLocal_succeeds_iff_witness :
  let r := registerLocal Sample.eve Missing in
  let r' := registerLocal Sample.toString_reg Missing in
  (users_of Missing !! "eve" = None ∧ "eve" ∉ object_prototype_keys)
  ∧ (∃ u, r.1 = inr u ∧ u !! "id" = Some "3" ∧ u !! "role" = Some "user")
  ∧ (∀ name user, users_of Missing !! name = Some user →
       users_of r.2 !! name = Some user)
  ∧ r'.1 = inl Conflict.
Proof.
  intros r r'.
  destruct (registerLocal_succeeds_iff Missing Sample.eve)
    as (Hiff & _ & Hkeep & Hok).
  destruct (registerLocal_succeeds_iff Missing Sample.toString_reg)
    as (_ & Herr & _ & _).
  assert (users_of Missing !! "eve" = None ∧ "eve" ∉ object_prototype_keys)
    as Hfree.
  { split; [reflexivity |]. intros Hin. apply list_elem_of_In in Hin.
    simpl in Hin. repeat destruct Hin as [Hin | Hin]; discriminate || done. }
  split; [exact Hfree |].
  split.
  { destruct (proj2 Hiff Hfree) as (u & Hu). exists u.
    destruct (Hok u Hu) as (Hid & _ & _ & _ & Hrole & _).
    split; [exact Hu |]. split; [exact Hid | exact Hrole]. }
  split; [exact Hkeep |].
  exact (f_equal inl (Herr Conflict eq_refl)).
Defined.

Lemma login_after_register_witness :
  let s' := (registerLocal Sample.eve Missing).2 in
  ∃ u, (registerLocal Sample.eve Missing).1 = inr u
     ∧ loginLocal {| login_username := "eve"; login_password := "s3cret" |}
         s' = (inr u, s')
     ∧ ∀ pw, pw ≠ "s3cret" →
         (loginLocal {| login_username := "eve"; login_password := pw |}
            s').1 = inl Unauthorized.
Proof.
  intros s'. eexists. split; [reflexivity |].
  exact (login_after_register Missing Sample.eve _ eq_refl).
Defined.

Lemma register_all_keeps_ids_witness :
  let regs := [Sample.eve; Sample.eve_again; Sample.toString_reg;
               Sample.bob] in
  ids_numbered (users_of Missing) ∧ ids_unique (users_of Missing)
  ∧ ids_numbered (users_of (register_all regs Missing))
  ∧ ids_unique (users_of (register_all regs Missing))
  ∧ size (users_of (register_all regs Missing)) = 4.
Proof.
  intros regs. destruct demo_ids as [Hnum Huniq].
  split; [exact Hnum |]. split; [exact Huniq |].
  destruct (register_all_keeps_ids regs Missing Hnum Huniq) as [H1 H2].
  split; [exact H1 |]. split; [exact H2 |]. reflexivity.
Defined.

Lemma reads_keep_users_witness :
  (∃ e, (registerLocal Sample.toString_reg Missing).1 = inl e)
  ∧ users_of (registerLocal Sample.toString_reg Missing).2
    = users_of Missing
  ∧ users_of (getAllUsers Missing).2 = users_of Missing.
Proof.
  destruct (reads_keep_users Missing) as (_ & Hall & Hreg).
  split; [eexists; reflexivity |].
  split; [exact (Hreg Sample.toString_reg Conflict eq_refl) | exact Hall].
Defined.

Lemma getAllUsers_after_register_witness :
  ∃ u before after,
    (registerLocal Sample.eve Missing).1 = inr u
    ∧ (getAllUsers Missing).1 = inr before
    ∧ (getAllUsers (registerLocal Sample.eve Missing).2).1 = inr after
    ∧ length after = S (length before)
    ∧ u ∈ after.
Proof.
  eexists.
  destruct (getAllUsers_after_register Missing Sample.eve _ eq_refl)
    as (before & after & H1 & H2 & H3 & H4).
  exists before, after. split; [reflexivity |].
  split; [exact H1 |]. split; [exact H2 |]. split; [exact H3 | exact H4].
Defined.

Lemma user_storage_edges_witness :
  ∃ u, (registerLocal Sample.eve Corrupt).1 = inr u
     ∧ u !! "id" = Some "1"
     ∧ users_of (registerLocal Sample.eve Corrupt).2
       = {[ "eve" := <["password" := "s3cret"]> u ]}.
Proof.
  destruct user_storage_edges as (_ & _ & _ & _ & _ & _ & Hreg).
  eexists. split; [reflexivity |]. split; [reflexivity |].
  exact (Hreg Sample.eve _ eq_refl).
Defined.

End UserMoreWitnesses.

(** ** The legacy express routes *)

Section ServerMore.

Implicit Types (users : gmap string obj) (name pw : string).

(** X15.  A registration with four non-empty fields under a free name answers
    201 with the new user, who has no password property and the role
    "user", and stores that user; afterwards every non-empty password logs
    that name in.  With a field missing or empty the answer is 400, with a
    taken name 409, and in both cases the users are left as they were. *)
Theorem server_register_outcomes users name pw fullName email :
  name ≠ "" → pw ≠ "" → fullName ≠ "" → email ≠ "" →
  let r := Server.register (Some name) (Some pw) (Some fullName)
             (Some email) users in
  (get_prop users name = Undefined →
     ∃ u, r = (Server.Json 201 (Own u), <[name := u]> users)
        ∧ u !! "password" = None
        ∧ u !! "role" = Some "user"
        ∧ u !! "id" = Some (pretty (size users + 1))
        ∧ ∀ pw', pw' ≠ "" →
            Server.login (Some name) (Some pw') r.2
            = Server.Json 200 (Own u))
  ∧ (get_prop users name ≠ Undefined →
     r = (Server.Failure 409 "Username already exists", users))
  ∧ (∀ a b c d, falsy a || falsy b || falsy c || falsy d = true →
       Server.register a b c d users
       = (Server.Failure 400 "Missing registration fields", users)).
Proof.
  intros Hn Hp Hf He r. subst r. unfold Server.register, falsy.
  rewrite !bool_decide_eq_false_2 by done. simpl. split_and!.
  - intros ->. eexists. split; [reflexivity |].
    destruct (mkUser_lookup (pretty (size users + 1)) name fullName email
                "user") as (H1 & _ & _ & _ & H5 & H6).
    split_and!; try done.
    intros pw' Hpw'. simpl. unfold Server.login, falsy.
    rewrite !bool_decide_eq_false_2 by done. simpl.
    assert (get_prop (<[name := LocalAuth.mkUser (pretty (size users + 1))
                                  name fullName email "user"]> users) name
            = Own (LocalAuth.mkUser (pretty (size users + 1)) name fullName
                     email "user")) as ->
      by apply get_prop_Own, lookup_insert_eq.
    by case_bool_decide.
  - by destruct (get_prop users name).
  - intros a b c d Hmissing. unfold falsy in Hmissing. by rewrite Hmissing.
Qed.

(** X16.  The login route answers 400 exactly when the user name or the password
    is missing or empty, and 401 exactly when both are given, they are not
    one of the two demo pairs, and the name is not a property of the users
    object; it fails in no other way. *)
Theorem server_login_outcomes users (username password : option string) :
  let demo_pair :=
    (username = Some "admin" ∧ password = Some "admin123")
    ∨ (username = Some "john" ∧ password = Some "user123") in
  let r := Server.login username password users in
  (r = Server.Failure 400 "Missing login fields" ↔
     falsy username = true ∨ falsy password = true)
  ∧ (r = Server.Failure 401 "Invalid credentials" ↔
       falsy username = false ∧ falsy password = false ∧ ¬ demo_pair
       ∧ get_prop users (default "" username) = Undefined)
  ∧ (∀ status message, r = Server.Failure status message →
       status = 400 ∨ status = 401).
Proof.
  intros demo_pair r. subst r demo_pair. unfold Server.login.
  destruct (falsy username) eqn:Hu; simpl.
  { split_and!; [naive_solver | naive_solver | intros ?? [= <- _]; auto]. }
  destruct (falsy password) eqn:Hp; simpl.
  { split_and!; [naive_solver | naive_solver | intros ?? [= <- _]; auto]. }
  case_bool_decide as Hdemo.
  { split_and!; [naive_solver | naive_solver | done]. }
  destruct (get_prop users (default "" username)) eqn:Hg.
  - split_and!; [naive_solver | naive_solver | done].
  - split_and!; [naive_solver | naive_solver | done].
  - split_and!; [naive_solver | naive_solver | intros ?? [= <- _]; auto].
Qed.

Lemma server_register_outcomes_witness :
  let r := Server.register (Some "eve") (Some "s3cret") (Some "Eve Adams")
             (Some "eve@example.com") Server.users in
  "eve" ≠ "" ∧ "s3cret" ≠ "" ∧ "Eve Adams" ≠ "" ∧ "eve@example.com" ≠ ""
  ∧ get_prop Server.users "eve" = Undefined
  ∧ ∃ u, r = (Server.Json 201 (Own u), <["eve" := u]> Server.users)
       ∧ u !! "password" = None
       ∧ u !! "role" = Some "user"
       ∧ u !! "id" = Some (pretty (size Server.users + 1))
       ∧ ∀ pw', pw' ≠ "" →
           Server.login (Some "eve") (Some pw') r.2
           = Server.Json 200 (Own u).
Proof.
  intros r.
  assert ("eve" ≠ "") as H1 by discriminate.
  assert ("s3cret" ≠ "") as H2 by discriminate.
  assert ("Eve Adams" ≠ "") as H3 by discriminate.
  assert ("eve@example.com" ≠ "") as H4 by discriminate.
  assert (get_prop Server.users "eve" = Undefined) as H5 by reflexivity.
  split; [exact H1 |]. split; [exact H2 |]. split; [exact H3 |].
  split; [exact H4 |]. split; [exact H5 |].
  exact (proj1 (server_register_outcomes Server.users "eve" "s3cret"
                  "Eve Adams" "eve@example.com" H1 H2 H3 H4) H5).
Defined.

Lemma server_login_outcomes_witness :
  (falsy (Some "nobody") = false ∧ falsy (Some "x") = false
   ∧ ¬ ((Some "nobody" = Some "admin" ∧ Some "x" = Some "admin123")
        ∨ (Some "nobody" = Some "john" ∧ Some "x" = Some "user123"))
   ∧ get_prop Server.users (default "" (Some "nobody")) = Undefined)
  ∧ Server.login (Some "nobody") (Some "x") Server.users
    = Server.Failure 401 "Invalid credentials"
  ∧ Server.login (Some "admin") None Server.users
    = Server.Failure 400 "Missing login fields".
Proof.
  destruct (server_login_outcomes Server.users (Some "nobody") (Some "x"))
    as (_ & H401 & _).
  destruct (server_login_outcomes Server.users (Some "admin") None)
    as (H400 & _ & _).
  assert (falsy (Some "nobody") = false ∧ falsy (Some "x") = false
   ∧ ¬ ((Some "nobody" = Some "admin" ∧ Some "x" = Some "admin123")
        ∨ (Some "nobody" = Some "john" ∧ Some "x" = Some "user123"))
   ∧ get_prop Server.users (default "" (Some "nobody")) = Undefined) as H.
  { split; [reflexivity |]. split; [reflexivity |]. split; [| reflexivity].
    intros [[Hd _] | [Hd _]]; discriminate. }
  split; [exact H |]. split; [exact (proj2 H401 H) |].
  exact (proj2 H400 (or_intror eq_refl)).
Defined.

End ServerMore.

(** ** The views: what they count and what they show *)

Lemma getCertificationsByUser_lists (s : LocalData.store) u :
  u ≠ "" →
  ∃ l, (LocalData.getCertificationsByUser (Some u) s).1 = inr l
     ∧ l = filter (λ c : obj, c !! "userId" = Some u) (LocalData.certs_of s).
Proof.
  intros Hu. eexists. split; [| reflexivity].
  unfold LocalData.getCertificationsByUser, bind, falsy.
  rewrite bool_decide_eq_false_2 by done. by destruct s.
Qed.

Section ViewMore.
Context `{DateFns}.

Implicit Types (c : obj) (certs certifications : list obj) (z : Z).


Lemma filter_reading_stable {A} (clock : nat → Date) (p : Date → A → bool)
    (q : A → bool) (k : nat) (l : list A) :
  (∀ j x, x ∈ l → p (clock j) x = q x) →
  filter_reading clock p k l = filter (λ x, q x) l.
Proof.
  revert k. induction l as [|x l IH]; intros k Hpq; [done |].
  simpl. rewrite filter_cons, (Hpq k x) by (by left).
  rewrite (IH (S k)) by (intros j y Hy; apply Hpq; by right).
  by destruct (q x).
Qed.

Lemma filter_reading_constant {A} (t : Date) (p : Date → A → bool)
    (k : nat) (l : list A) :
  filter_reading (λ _, t) p k l = filter (λ x, p t x) l.
Proof. by apply (filter_reading_stable (λ _, t) p (p t)). Qed.

(** With a clock that returns [now] at every reading, the counting views
    are the ones evaluated at the one instant [now]. *)
Lemma counting_views_at_one_instant certifications userId :
  RenewalsClock.categorizedCerts (λ _, now) certifications
  = Renewals.categorizedCerts certifications
  ∧ DashboardClock.stats (λ _, now) certifications
    = Dashboard.stats certifications
  ∧ AdminExpiringClock.stats (λ _, now) certifications
    = AdminExpiring.stats certifications
  ∧ AdminUsersClock.getUserStats (λ _, now) certifications userId
    = AdminUsers.getUserStats certifications userId.
Proof.
  unfold RenewalsClock.categorizedCerts, Renewals.categorizedCerts,
    DashboardClock.stats, Dashboard.stats, AdminExpiringClock.stats,
    AdminExpiring.stats, AdminUsersClock.getUserStats,
    AdminUsers.getUserStats.
  split_and!; f_equal; by rewrite filter_reading_constant.
Qed.







(** X21.  The badge of a row in the admin's list has the variant of the card of
    the same certification, reads "Expired" when the card is expired and
    "Active" when the card is active. *)
Theorem admin_badge_matches_card c :
  AdminCertifications.variant (AdminCertifications.getStatusInfo c)
  = Card.variant (Card.getStatusInfo (daysLeft c))
  ∧ (Card.cardStatus c = "expired" →
     AdminCertifications.label (AdminCertifications.getStatusInfo c)
     = "Expired")
  ∧ (Card.cardStatus c = "active" →
     AdminCertifications.label (AdminCertifications.getStatusInfo c)
     = "Active").
Proof.
  unfold AdminCertifications.getStatusInfo, Card.cardStatus,
    Card.getStatusInfo.
  destruct (daysLeft c) as [z|]; simpl; [| done].
  repeat case_bool_decide; simpl; try done; lia.
Qed.

(** X22.  The time filters of the admin's expiring page are nested: what "30"
    shows, "60" shows; what "60" shows, "90" shows; what "90" or "expired"
    shows, "all" shows.  "all" also shows what expires today, which none
    of the other four does. *)
Theorem time_filters_nested c :
  (AdminExpiringList.shown AdminExpiringList.d30 c = true →
   AdminExpiringList.shown AdminExpiringList.d60 c = true)
  ∧ (AdminExpiringList.shown AdminExpiringList.d60 c = true →
     AdminExpiringList.shown AdminExpiringList.d90 c = true)
  ∧ (AdminExpiringList.shown AdminExpiringList.d90 c = true →
     AdminExpiringList.shown AdminExpiringList.all c = true)
  ∧ (AdminExpiringList.shown AdminExpiringList.expired c = true →
     AdminExpiringList.shown AdminExpiringList.all c = true)
  ∧ (daysLeft c = Some 0%Z →
     AdminExpiringList.shown AdminExpiringList.all c = true
     ∧ ∀ f, f ≠ AdminExpiringList.all →
         AdminExpiringList.shown f c = false).
Proof.
  unfold AdminExpiringList.shown.
  destruct (daysLeft c) as [z|]; simpl.
  - split_and!; try (repeat case_bool_decide; simpl; done || lia).
    intros [= ->]. split; [done |]. by intros [].
  - by split_and!.
Qed.

(** X23.  The numbers the admin sees for a user are the numbers on that user's
    own dashboard, which is built from [getCertificationsByUser]. *)
Theorem admin_user_stats_match_dashboard (s : LocalData.store) userId l :
  userId ≠ "" →
  (LocalData.getCertificationsByUser (Some userId) s).1 = inr l →
  let a := AdminUsers.getUserStats (LocalData.certs_of s) userId in
  let d := Dashboard.stats l in
  AdminUsers.total a = Dashboard.total d
  ∧ AdminUsers.active a = Dashboard.active d
  ∧ AdminUsers.expiring a = Dashboard.expiringSoon d
  ∧ AdminUsers.expired a = Dashboard.expired d.
Proof.
  intros Hne Hl.
  destruct (getCertificationsByUser_lists s userId Hne) as (l' & Hl' & ->).
  rewrite Hl' in Hl. injection Hl as <-. done.
Qed.

(** X24.  The card of a certification as [createCertification] returns it never
    offers "View Certificate", whatever URL the input carried. *)
Theorem created_card_has_no_certificate_link uuid today data
    (s : LocalData.store) showActions :
  ∃ c, (LocalData.createCertification uuid today data s).1 = inr c
     ∧ CardMenu.offersCertificate showActions c = false.
Proof.
  destruct (createCertification_stored uuid today data s)
    as (c & -> & _ & _ & _ & Hurl & _).
  exists c. split; [done |].
  unfold CardMenu.offersCertificate. rewrite Hurl. by destruct showActions.
Qed.

End ViewMore.

Section FilterMore.
Context `{DateFns} `{Casing}.


Lemma filter_throwing_None {A} (p : A → option bool) (l : list A) x :
  x ∈ l → p x = None → filter_throwing p l = None.
Proof.
  induction l as [|y l IH]; intros Hx Hp; [by apply not_elem_of_nil in Hx |].
  simpl. apply elem_of_cons in Hx as [<- | Hx].
  - by rewrite Hp.
  - destruct (p y); [| done]. by rewrite IH.
Qed.






(** X26.  One certification without a [name] makes the list filter throw,
    whatever the search text and the status filter. *)
Theorem filteredCertifications_throws search statusFilter certifications c :
  c ∈ certifications → c !! "name" = None →
  UserCertifications.filteredCertifications search statusFilter
    certifications = None.
Proof.
  intros Hc Hn. eapply filter_throwing_None; [done |].
  unfold UserCertifications.keeps, UserCertifications.matchesSearch.
  by rewrite Hn.
Qed.

End FilterMore.

(** ** The routes *)

Section RouteMore.

Implicit Types (auth : App.Auth) (r : App.route).

(** X27.  A page of the admin area is rendered only for a logged-in user whose
    role is "admin", and a page of the user area only for one whose role is
    "user"; nothing but the spinner is shown while the session loads. *)
Theorem router_guards_pages auth r page :
  App.Router auth r = App.Render page →
  App.isLoading auth = false
  ∧ (page ∈ App.admin_pages →
     ∃ u, App.user auth = Some u ∧ u !! "role" = Some "admin")
  ∧ (page ∈ App.user_pages →
     ∃ u, App.user auth = Some u ∧ u !! "role" = Some "user").
Proof.
  unfold App.Router, App.ProtectedRoute.
  destruct (App.isLoading auth); [done |].
  intros Hr. split; [done |].
  destruct r, (App.user auth) as [u|]; simpl in Hr;
    repeat case_bool_decide; simpl in Hr; try done;
    injection Hr as <-;
    (split; intros Hp; apply list_elem_of_In in Hp; simpl in Hp;
     [ first [by intuition discriminate | exists u; split; [done |]]
     | first [by intuition discriminate | exists u; split; [done |]] ]);
    by destruct (u !! "role") as [?|]; simplify_eq.
Qed.

(** X28.  Once the session has loaded, following at most two redirects from any
    route ends on a page: "Login" or "NotFound" for a visitor, a page of
    the admin area or "NotFound" for an admin, a page of the user area or
    "NotFound" for a user. *)
Theorem routes_settle auth r :
  App.isLoading auth = false →
  match App.user auth with
  | None =>
      App.settle 2 auth r = App.Render "Login"
      ∨ App.settle 2 auth r = App.Render "NotFound"
  | Some u =>
      (u !! "role" = Some "admin" →
       ∃ page, App.settle 2 auth r = App.Render page
             ∧ (page ∈ App.admin_pages ∨ page = "NotFound"))
      ∧ (u !! "role" = Some "user" →
         ∃ page, App.settle 2 auth r = App.Render page
               ∧ (page ∈ App.user_pages ∨ page = "NotFound"))
  end.
Proof.
  intros Hload. destruct auth as [[u|] ld]; simpl in *; subst ld.
  - split; intros Hrole; destruct r;
      unfold App.settle, App.Router, App.ProtectedRoute; simpl;
      rewrite ?Hrole; simpl; rewrite ?Hrole; simpl;
      (eexists; split; [reflexivity |]);
      first [by right | left; set_solver].
  - destruct r; simpl; auto.
Qed.

(** X29.  A logged-in user whose role is neither "admin" nor "user" never gets a
    page of either area: every route but the fallback keeps redirecting to
    "/dashboard", however many redirects are followed. *)
Theorem unknown_role_is_redirected_forever auth u r fuel :
  App.isLoading auth = false → App.user auth = Some u →
  u !! "role" ≠ Some "admin" → u !! "role" ≠ Some "user" →
  r ≠ App.Fallback →
  App.settle fuel auth r = App.Redirect "/dashboard".
Proof.
  intros Hload Hu Hadmin Huser.
  assert (∀ r, r ≠ App.Fallback →
            App.Router auth r = App.Redirect "/dashboard") as Hstep.
  { intros r' Hr'. unfold App.Router, App.ProtectedRoute.
    rewrite Hload, Hu.
    destruct r'; simpl; try done;
      rewrite ?(bool_decide_eq_false_2 (u !! "role" = Some "admin")) by done;
      rewrite ?bool_decide_eq_true_2 by done; try done.
    all: rewrite ?(bool_decide_eq_false_2 (u !! "role" = Some "admin"))
      by done; done. }
  revert r. induction fuel as [|fuel IH]; intros r Hr; simpl;
    rewrite (Hstep r Hr); [done |].
  by apply IH.
Qed.

(** X30.  Every link in the sidebar of a logged-in admin or user, and the link
    on its logo, leads to a route that renders a page for that user, not to
    a redirect or to "NotFound". *)
Theorem sidebar_links_render auth u :
  App.isLoading auth = false → App.user auth = Some u →
  u !! "role" = Some "admin" ∨ u !! "role" = Some "user" →
  (∀ item, item ∈ Sidebar.menuItems (App.user auth) →
     ∃ page, App.Router auth (App.route_of (Sidebar.url item))
             = App.Render page
           ∧ page ≠ "NotFound")
  ∧ ∃ page, App.Router auth (App.route_of (Sidebar.basePath (App.user auth)))
            = App.Render page
          ∧ page ≠ "NotFound".
Proof.
  intros Hload Hu Hrole. rewrite Hu.
  unfold Sidebar.menuItems, Sidebar.basePath, Sidebar.isAdmin,
    App.Router, App.ProtectedRoute. simpl. rewrite Hload, Hu.
  destruct Hrole as [Hr | Hr]; rewrite Hr; simpl.
  - split.
    + intros item Hitem. apply list_elem_of_In in Hitem. simpl in Hitem.
      destruct Hitem as [<-|[<-|[<-|[<-|[]]]]]; simpl; rewrite ?Hr; simpl;
        eexists; (split; [reflexivity | done]).
    + simpl. rewrite ?Hr. simpl. eexists; (split; [reflexivity | done]).
  - split.
    + intros item Hitem. apply list_elem_of_In in Hitem. simpl in Hitem.
      destruct Hitem as [<-|[<-|[<-|[]]]]; simpl; rewrite ?Hr; simpl;
        eexists; (split; [reflexivity | done]).
    + simpl. rewrite ?Hr. simpl. eexists; (split; [reflexivity | done]).
Qed.

End RouteMore.

Section ViewMoreWitnesses.

Lemma admin_badge_matches_card_witness :
  let cal := UTC.at_instant Sample.noon_2026_11_01 in
  @Card.cardStatus cal Sample.pmp = "active"
  ∧ AdminCertifications.label (@AdminCertifications.getStatusInfo cal
                                 Sample.pmp) = "Active"
  ∧ AdminCertifications.variant (@AdminCertifications.getStatusInfo cal
                                   Sample.pmp)
    = Card.variant (Card.getStatusInfo (@daysLeft cal Sample.pmp)).
Proof.
  intros cal.
  destruct (@admin_badge_matches_card cal Sample.pmp) as (Hv & _ & Ha).
  assert (@Card.cardStatus cal Sample.pmp = "active") as Hs
    by (vm_compute; reflexivity).
  split; [exact Hs |]. split; [exact (Ha Hs) | exact Hv].
Defined.

Lemma time_filters_nested_witness :
  let cal := UTC.at_instant Sample.noon_2026_11_01 in
  @daysLeft cal Sample.aws = Some 0%Z
  ∧ @AdminExpiringList.shown cal AdminExpiringList.all Sample.aws = true
  ∧ ∀ f, f ≠ AdminExpiringList.all →
      @AdminExpiringList.shown cal f Sample.aws = false.
Proof.
  intros cal.
  destruct (@time_filters_nested cal Sample.aws) as (_ & _ & _ & _ & H0).
  assert (@daysLeft cal Sample.aws = Some 0%Z) as Hd
    by (vm_compute; reflexivity).
  split; [exact Hd | exact (H0 Hd)].
Defined.

Lemma admin_user_stats_match_dashboard_witness :
  let cal := UTC.at_instant Sample.noon_2026_11_01 in
  let a := @AdminUsers.getUserStats cal (LocalData.certs_of Sample.certs)
             "1" in
  let d := @Dashboard.stats cal [Sample.pmp] in
  "1" ≠ ""
  ∧ (LocalData.getCertificationsByUser (Some "1") Sample.certs).1
    = inr [Sample.pmp]
  ∧ AdminUsers.total a = Dashboard.total d
  ∧ AdminUsers.active a = Dashboard.active d
  ∧ AdminUsers.expiring a = Dashboard.expiringSoon d
  ∧ AdminUsers.expired a = Dashboard.expired d.
Proof.
  intros cal a d.
  assert ("1" ≠ "") as H1 by discriminate.
  assert ((LocalData.getCertificationsByUser (Some "1") Sample.certs).1
          = inr [Sample.pmp]) as H2 by reflexivity.
  split; [exact H1 |]. split; [exact H2 |].
  exact (@admin_user_stats_match_dashboard cal Sample.certs "1"
           [Sample.pmp] H1 H2).
Defined.

Lemma sample_certs_named :
  ∀ c : obj, c ∈ [Sample.aws; Sample.pmp] →
    is_Some (c !! "name") ∧ is_Some (c !! "issuingOrganization").
Proof.
  intros c Hc. apply list_elem_of_In in Hc.
  destruct Hc as [<-|[<-|[]]]; split; eexists; reflexivity.
Defined.



Example filteredCertifications_pm :
  @UserCertifications.filteredCertifications
    (UTC.at_instant Sample.noon_2026_11_01) ascii_casing "pm"
    UserCertifications.active [Sample.aws; Sample.pmp] = Some [Sample.pmp].
Proof. reflexivity. Qed.

Lemma filteredCertifications_throws_witness :
  let cal := UTC.at_instant Sample.noon_2026_11_01 in
  Sample.nameless ∈ [Sample.aws; Sample.nameless]
  ∧ Sample.nameless !! "name" = None
  ∧ @UserCertifications.filteredCertifications cal ascii_casing ""
      UserCertifications.all [Sample.aws; Sample.nameless] = None.
Proof.
  intros cal.
  assert (Sample.nameless ∈ [Sample.aws; Sample.nameless]) as H1
    by (right; left).
  assert (Sample.nameless !! "name" = None) as H2 by reflexivity.
  split; [exact H1 |]. split; [exact H2 |].
  exact (@filteredCertifications_throws cal ascii_casing ""
           UserCertifications.all [Sample.aws; Sample.nameless]
           Sample.nameless H1 H2).
Defined.

Lemma router_guards_pages_witness :
  App.Router (Sample.session Sample.admin_user) App.AdminUsers
  = App.Render "AdminUsers"
  ∧ App.isLoading (Sample.session Sample.admin_user) = false
  ∧ ("AdminUsers" ∈ App.admin_pages →
     ∃ u, App.user (Sample.session Sample.admin_user) = Some u
        ∧ u !! "role" = Some "admin")
  ∧ ("AdminUsers" ∈ App.user_pages →
     ∃ u, App.user (Sample.session Sample.admin_user) = Some u
        ∧ u !! "role" = Some "user").
Proof.
  assert (App.Router (Sample.session Sample.admin_user) App.AdminUsers
          = App.Render "AdminUsers") as H by reflexivity.
  split; [exact H |].
  exact (router_guards_pages (Sample.session Sample.admin_user)
           App.AdminUsers "AdminUsers" H).
Defined.

Lemma routes_settle_witness :
  App.isLoading (Sample.session Sample.john_user) = false
  ∧ Sample.john_user !! "role" = Some "user"
  ∧ App.Router (Sample.session Sample.john_user) App.AdminUsers
    = App.Redirect "/dashboard"
  ∧ ∃ page, App.settle 2 (Sample.session Sample.john_user) App.AdminUsers
            = App.Render page
          ∧ (page ∈ App.user_pages ∨ page = "NotFound").
Proof.
  assert (App.isLoading (Sample.session Sample.john_user) = false) as H1
    by reflexivity.
  assert (Sample.john_user !! "role" = Some "user") as H2 by reflexivity.
  split; [exact H1 |]. split; [exact H2 |]. split; [reflexivity |].
  exact (proj2 (routes_settle (Sample.session Sample.john_user)
                  App.AdminUsers H1) H2).
Defined.

Lemma unknown_role_is_redirected_forever_witness :
  App.isLoading (Sample.session Sample.guest_user) = false
  ∧ App.user (Sample.session Sample.guest_user) = Some Sample.guest_user
  ∧ Sample.guest_user !! "role" ≠ Some "admin"
  ∧ Sample.guest_user !! "role" ≠ Some "user"
  ∧ App.Root ≠ App.Fallback
  ∧ App.settle 100 (Sample.session Sample.guest_user) App.Root
    = App.Redirect "/dashboard".
Proof.
  assert (Sample.guest_user !! "role" ≠ Some "admin") as H3
    by (vm_compute; discriminate).
  assert (Sample.guest_user !! "role" ≠ Some "user") as H4
    by (vm_compute; discriminate).
  assert (App.Root ≠ App.Fallback) as H5 by discriminate.
  split; [reflexivity |]. split; [reflexivity |]. split; [exact H3 |].
  split; [exact H4 |]. split; [exact H5 |].
  exact (unknown_role_is_redirected_forever
           (Sample.session Sample.guest_user) Sample.guest_user App.Root 100
           eq_refl eq_refl H3 H4 H5).
Defined.

Lemma sidebar_links_render_witness :
  App.isLoading (Sample.session Sample.john_user) = false
  ∧ App.user (Sample.session Sample.john_user) = Some Sample.john_user
  ∧ (Sample.john_user !! "role" = Some "admin"
     ∨ Sample.john_user !! "role" = Some "user")
  ∧ (∀ item,
       item ∈ Sidebar.menuItems (App.user (Sample.session Sample.john_user)) →
       ∃ page, App.Router (Sample.session Sample.john_user)
                 (App.route_of (Sidebar.url item)) = App.Render page
             ∧ page ≠ "NotFound").
Proof.
  assert (Sample.john_user !! "role" = Some "admin"
          ∨ Sample.john_user !! "role" = Some "user") as H3
    by (right; reflexivity).
  split; [reflexivity |]. split; [reflexivity |]. split; [exact H3 |].
  exact (proj1 (sidebar_links_render (Sample.session Sample.john_user)
                  Sample.john_user eq_refl eq_refl H3)).
Defined.

End ViewMoreWitnesses.

Section ClockWitnesses.



(** Without that condition the counters need not add up: [Sample.pmp] has
    91 days left at the first reading of the clock and 90 at the later
    ones, and is counted both as active and as expiring soon. *)
Example dashboard_stats_over_midnight :
  @DashboardClock.stats (UTC.at_instant Sample.noon_2026_11_01)
     Sample.clock_over_midnight [Sample.pmp]
  = {| Dashboard.total := 1; Dashboard.active := 1;
       Dashboard.expiringSoon := 1; Dashboard.expired := 0 |}.
Proof. reflexivity. Qed.

End ClockWitnesses.
